(** * weather-etl-pipeline: the transformation stage (transformation.py)
      and the ingestion stage (ingestion.py)

    A shallow embedding of [to_flat_schema] and [merge_flat] together with
    the part of the data-frame library they call, and the properties of the
    merge that the specification states; then the two producers of
    ingestion.py, from the point where the file has been read and the
    response decoded, and what they hand to the merge.

    Data frames are modelled as an ordered list of column labels and a list
    of rows, every row being a finite map from labels to cells.  Column
    labels of one frame are taken to be pairwise distinct.  The behaviour
    of the library that its documentation leaves open (how free text is
    parsed as a date, in which order join groups are emitted, how the
    default sort orders rows with equal keys) is taken through the class
    [Pandas], which records only what the library promises. *)

From Stdlib Require Import NArith ZArith QArith.QArith_base String Ascii Lia.
From Stdlib Require Import OrderedTypeEx.
From stdpp Require Import base option list gmap strings sorting.

Local Open Scope string_scope.
Local Open Scope N_scope.
Local Open Scope list_scope.
Local Open Scope stdpp_scope.

(** ** Calendar values *)

(** A [datetime.date] object. *)
Record date := Date { year : N; month : N; day : N }.

(** A naive [Timestamp] (no time zone). *)
Record Timestamp := MkTimestamp {
  ts_date : date; hour : N; minute : N; second : N; nanosecond : N }.

Global Instance date_eq_dec : EqDecision date.
Proof. solve_decision. Defined.

Global Instance Timestamp_eq_dec : EqDecision Timestamp.
Proof. solve_decision. Defined.

(** The range of [datetime.date]: a four-digit year, a month and a day. *)
Definition valid_date (d : date) : Prop :=
  1 ≤ year d ∧ year d ≤ 9999 ∧ 1 ≤ month d ∧ month d ≤ 12 ∧ 1 ≤ day d ∧ day d ≤ 31.

Definition midnight (d : date) : Timestamp :=
  {| ts_date := d; hour := 0; minute := 0; second := 0; nanosecond := 0 |}.

Definition digit (n : N) : ascii := ascii_of_N (48 + n mod 10).

(** [%02d] and [%04d] on the values a calendar field can take. *)
Definition pad2 (n : N) : string :=
  String (digit (n / 10)) (String (digit n) "").

Definition pad4 (n : N) : string :=
  String (digit (n / 1000)) (String (digit (n / 100)) (pad2 n)).

(** [str(d)] for a [datetime.date]: [YYYY-MM-DD]. *)
Definition isoformat (d : date) : string :=
  pad4 (year d) +:+ "-" +:+ pad2 (month d) +:+ "-" +:+ pad2 (day d).

(** [t.strftime("%Y-%m-%d %H:%M:%S")]. *)
Definition strftime (t : Timestamp) : string :=
  isoformat (ts_date t) +:+ " " +:+ pad2 (hour t) +:+ ":" +:+ pad2 (minute t)
    +:+ ":" +:+ pad2 (second t).

Definition lex (c1 c2 : comparison) : comparison :=
  match c1 with Eq => c2 | _ => c1 end.

Definition date_compare (a b : date) : comparison :=
  lex (year a ?= year b) (lex (month a ?= month b) (day a ?= day b)).

Definition ts_compare (a b : Timestamp) : comparison :=
  lex (date_compare (ts_date a) (ts_date b))
    (lex (hour a ?= hour b) (lex (minute a ?= minute b)
      (lex (second a ?= second b) (nanosecond a ?= nanosecond b)))).

(** ** Cells, rows and frames *)

(** A cell of a frame.  [NA] stands for every missing marker ([NaN],
    [None], [NaT], [<NA>]); the payload of a number is never inspected by
    the transformation, only tested for being missing. *)
Inductive cell :=
  | NA
  | Num (x : Q)
  | Str (s : string)
  | DateObj (d : date)
  | Stamp (t : Timestamp).

Global Instance Q_eq_dec : EqDecision Q.
Proof. solve_decision. Defined.

Global Instance cell_eq_dec : EqDecision cell.
Proof. solve_decision. Defined.

Record DataFrame := MkDataFrame {
  columns : list string;
  rows : list (gmap string cell) }.

Inductive error := KeyError | MergeError | AttributeError | TypeError.

Inductive result (A : Type) :=
  | Ok (a : A)
  | Err (e : error).
Global Arguments Ok {A} a.
Global Arguments Err {A} e.

Global Instance result_bind : MBind result := λ A B f m,
  match m with Ok a => f a | Err e => Err e end.

(** An assignment statement followed by the rest of the function body:
    [x ::= v; k] runs [k] with [x] bound to [v].  Rebinding a name models
    the in-place update of a local variable. *)
Definition assign {A B : Type} (value : A) (rest : A → B) : B := rest value.

Notation "x ::= v ; k" := (assign v (λ x, k))
  (at level 20, v at level 100, k at level 200, only parsing).

(** [pd.notna] on a cell and on a timestamp slot. *)
Definition notna (c : cell) : bool :=
  match c with NA => false | _ => true end.

Definition notna_ts (a : option Timestamp) : bool :=
  match a with Some _ => true | None => false end.

(** The cell of row [r] under label [c]. *)
Definition cell_at (r : gmap string cell) (c : string) : cell :=
  default NA (r !! c).

(** The sort key of a string column: the string, or nothing for [<NA>]. *)
Definition str_key (c : cell) : option string :=
  match c with Str s => Some s | _ => None end.

(** Ascending order of string keys with the missing ones last
    ([na_position="last"]). *)
Definition key_le (a b : option string) : Prop :=
  match a, b with
  | Some x, Some y => String.leb x y = true
  | _, None => True
  | None, Some _ => False
  end.

Definition by_key {A : Type} (f : A → option string) : relation A :=
  λ x y, key_le (f x) (f y).

(** ** What the transformation relies on from the data-frame library *)

Class Pandas := {
  (** [pd.to_datetime(_, errors="coerce")], taken cell by cell: a missing
      value stays missing, and a date that is converted becomes the
      midnight of that day.  What it makes of a string or of a number is
      left to the library. *)
  to_datetime : cell → option Timestamp;
  to_datetime_NA : to_datetime NA = None;
  to_datetime_DateObj : ∀ d t, to_datetime (DateObj d) = Some t → t = midnight d;
  (** The key groups of an outer join: the union of the keys of both
      sides, each once. *)
  merge_keys : list cell → list cell → list cell;
  merge_keys_NoDup : ∀ l r, NoDup (merge_keys l r);
  merge_keys_elem : ∀ k l r, k ∈ merge_keys l r ↔ k ∈ l ∨ k ∈ r;
  (** [sort_values] with its default [kind]: the rows are permuted into
      ascending key order, missing keys last.  The default algorithm is
      documented as not stable, so nothing is recorded about rows with
      equal keys. *)
  sort_values : ∀ {A : Type}, (A → option string) → list A → list A;
  sort_values_perm : ∀ A (f : A → option string) l, sort_values f l ≡ₚ l;
  sort_values_sorted : ∀ A (f : A → option string) l,
    StronglySorted (by_key f) (sort_values f l)
}.

(** ** Frame operations *)

Definition FLAT_COLUMNS : list string :=
  [ "date"; "data_type"; "source"; "ingested_at";
    "obs_tmax_c"; "obs_tmin_c"; "obs_precip_mm";
    "fc_tmax_c"; "fc_tmin_c"; "fc_precip_mm" ].

(** [s.endswith(suffix)]. *)
Definition endswith (s suffix : string) : bool :=
  let n := String.length s in
  let m := String.length suffix in
  if (m <=? n)%nat then String.eqb (substring (n - m) m s) suffix else false.

(** [df[c]] for a label the frame carries. *)
Definition df_col (df : DataFrame) (c : string) : list cell :=
  (λ r, cell_at r c) <$> rows df.

(** [df.get(c)]: the column, or [None] when the label is unknown. *)
Definition df_get (df : DataFrame) (c : string) : option (list cell) :=
  if decide (c ∈ columns df) then Some (df_col df c) else None.

(** [df[c] = values]: overwrite the column in place, or append it. *)
Definition df_set (df : DataFrame) (c : string) (values : list cell) : DataFrame :=
  {| columns := if decide (c ∈ columns df) then columns df else columns df ++ [c];
     rows := zip_with (λ r v, <[c:=v]> r) (rows df) values |}.

(** A scalar broadcast over the rows of [df]. *)
Definition full (df : DataFrame) (v : cell) : list cell :=
  replicate (length (rows df)) v.

(** The right-hand side [df.get(c)] used as a value: a missing column
    is the scalar [None]. *)
Definition as_values (df : DataFrame) (o : option (list cell)) : list cell :=
  default (full df NA) o.

(** [df.drop(columns=labels, errors="ignore")]. *)
Definition df_drop (df : DataFrame) (labels : list string) : DataFrame :=
  {| columns := filter (λ c, c ∉ labels) (columns df);
     rows := (λ r, foldr delete r labels) <$> rows df |}.

(** [df[labels]]: the listed columns, in the listed order. *)
Definition df_select (df : DataFrame) (labels : list string) : DataFrame :=
  {| columns := labels;
     rows := (λ r, list_to_map ((λ c, (c, cell_at r c)) <$> labels)) <$> rows df |}.

(** [np.where(cond, x, y)] on arrays of one length. *)
Definition np_where (cond : list bool) (x y : list cell) : list cell :=
  zip_with (λ (b : bool) (p : cell * cell), if b then p.1 else p.2) cond (zip x y).

(** [.dt.strftime("%Y-%m-%d %H:%M:%S")] on a datetime column. *)
Definition dt_strftime (values : list cell) : list cell :=
  (λ c, match c with Stamp t => Str (strftime t) | _ => NA end) <$> values.

(** [.dt.date] and [.astype("string")]. *)
Definition dt_date (values : list (option Timestamp)) : list (option date) :=
  (λ o : option Timestamp, ts_date <$> o) <$> values.

Definition astype_string (values : list (option date)) : list cell :=
  (λ o, match o with Some d => Str (isoformat d) | None => NA end) <$> values.

(** [max(a, b)] of Python: [b] when [b > a], else [a]; every comparison
    with [NaT] is false. *)
Definition py_gt (b a : option Timestamp) : bool :=
  match b, a with
  | Some x, Some y => match ts_compare x y with Gt => true | _ => false end
  | _, _ => false
  end.

Definition py_max (a b : option Timestamp) : option Timestamp :=
  if py_gt b a then b else a.

(** The function given to [combine] in [merge_flat]:
    [lambda a, b: max(a, b) if (pd.notna(a) or pd.notna(b)) else pd.NaT]. *)
Definition latest (a b : option Timestamp) : option Timestamp :=
  if notna_ts a || notna_ts b then py_max a b else None.

(** [ia_hist.combine(ia_fc, func=latest)], where either operand is [None]
    when [merged.get] found no such column: [None] has no [combine], and
    against the scalar [None] the function compares a timestamp with
    [None]. *)
Definition combine (ia_hist ia_fc : option (list (option Timestamp)))
    : result (list (option Timestamp)) :=
  match ia_hist, ia_fc with
  | None, _ => Err AttributeError
  | Some a, Some b => Ok (zip_with latest a b)
  | Some a, None =>
      if existsb notna_ts a then Err TypeError else Ok ((λ _, None) <$> a)
  end.

Definition stamp_cell (o : option Timestamp) : cell :=
  match o with Some t => Stamp t | None => NA end.

(** The label of a value column in the join result: labels carried by both
    sides get the side's suffix, the key keeps its name. *)
Definition suffixed (other : list string) (suffix : string) (c : string) : string :=
  if decide (c = "date") then c
  else if decide (c ∈ other) then c +:+ suffix else c.

Definition side_cell (o : option (gmap string cell)) (c : string) : cell :=
  match o with Some r => cell_at r c | None => NA end.

Definition keys (df : DataFrame) : list cell := df_col df "date".

Definition key_rows (rs : list (gmap string cell)) (k : cell) : list (gmap string cell) :=
  filter (λ r, cell_at r "date" = k) rs.

(** The pairs of rows an outer join forms for key [k]: every left row
    with every right row of that key, or the rows of one side alone. *)
Definition join_pairs (ls rs : list (gmap string cell)) (k : cell)
    : list (option (gmap string cell) * option (gmap string cell)) :=
  match key_rows ls k, key_rows rs k with
  | [], rm => (λ r, (None, Some r)) <$> rm
  | lm, [] => (λ l, (Some l, None)) <$> lm
  | lm, rm => l ← lm; r ← rm; [(Some l, Some r)]
  end.

Definition merged_row (lcols rcols : list string) (k : cell)
    (p : option (gmap string cell) * option (gmap string cell)) : gmap string cell :=
  list_to_map
    (((λ c, (suffixed rcols "_hist" c,
             if decide (c = "date") then k else side_cell p.1 c)) <$> lcols) ++
     ((λ c, (suffixed lcols "_fc" c, side_cell p.2 c)) <$> filter (λ c, c ≠ "date") rcols)).

Section Transformation.
Context `{Pandas}.

(** [pd.merge(left, right, on="date", how="outer",
    suffixes=("_hist", "_fc"))]: [KeyError] when a side has no [date]
    column; a value column carried by both sides gets the suffix of its
    side; every key of either side yields the pairs of [join_pairs], a
    missing side filled with [NA].  Missing keys match each other.  A join
    whose labels collide after suffixing is reported as [MergeError] (the
    library raises it when the collision comes from one side; frames with
    repeated labels are outside this model). *)
Definition pd_merge (left right : DataFrame) : result DataFrame :=
  if decide ("date" ∈ columns left ∧ "date" ∈ columns right) then
    let lcols := columns left in
    let rcols := columns right in
    let cols := (suffixed rcols "_hist" <$> lcols) ++
                (suffixed lcols "_fc" <$> filter (λ c, c ≠ "date") rcols) in
    if decide (NoDup cols) then
      Ok {| columns := cols;
            rows := k ← merge_keys (keys left) (keys right);
                    merged_row lcols rcols k <$> join_pairs (rows left) (rows right) k |}
    else Err MergeError
  else Err KeyError.

Definition to_datetime_series (o : option (list cell)) : option (list (option Timestamp)) :=
  (λ values : list cell, to_datetime <$> values) <$> o.

(** [df.sort_values(by=c).reset_index(drop=True)] on a string column. *)
Definition df_sort_values (df : DataFrame) (c : string) : DataFrame :=
  {| columns := columns df;
     rows := sort_values (λ r, str_key (cell_at r c)) (rows df) |}.

Definition to_flat_schema (df : DataFrame) : DataFrame :=
  out ::= df;
  (* Add missing columns (created as NA if absent) *)
  out ::= foldl (λ out c, if decide (c ∈ columns out) then out
                          else df_set out c (full out NA)) out FLAT_COLUMNS;
  (* Reorder columns to match the flat schema definition *)
  out ::= df_select out FLAT_COLUMNS;
  (* Final date formatting and sorting *)
  out ::= df_set out "date"
    (astype_string (dt_date (to_datetime <$> df_col out "date")));
  out ::= df_sort_values out "date";
  out.

Definition merge_flat (eccc_df fc_df : DataFrame) : result DataFrame :=
  (* 1. Full Outer Join on date key *)
  merged ← pd_merge eccc_df fc_df;
  (* 2. ingested_at = the latest timestamp from either source *)
  ia_hist ::= to_datetime_series (df_get merged "ingested_at_hist");
  ia_fc ::= to_datetime_series (df_get merged "ingested_at_fc");
  ia ← combine ia_hist ia_fc;
  merged ::= df_set merged "ingested_at" (stamp_cell <$> ia);
  merged ::= df_set merged "ingested_at" (dt_strftime (df_col merged "ingested_at"));
  (* 3. obs_* fields come from historical data only *)
  merged ::= df_set merged "obs_tmax_c" (as_values merged (df_get merged "obs_tmax_c_hist"));
  merged ::= df_set merged "obs_tmin_c" (as_values merged (df_get merged "obs_tmin_c_hist"));
  merged ::= df_set merged "obs_precip_mm"
               (as_values merged (df_get merged "obs_precip_mm_hist"));
  (* 4. fc_* fields come from forecast data only *)
  merged ::= df_set merged "fc_tmax_c" (as_values merged (df_get merged "fc_tmax_c_fc"));
  merged ::= df_set merged "fc_tmin_c" (as_values merged (df_get merged "fc_tmin_c_fc"));
  merged ::= df_set merged "fc_precip_mm"
               (as_values merged (df_get merged "fc_precip_mm_fc"));
  (* 5. Resolve row type (data_type) and source *)
  has_hist ::= zip_with orb (zip_with orb (notna <$> df_col merged "obs_tmax_c")
                 (notna <$> df_col merged "obs_tmin_c"))
                 (notna <$> df_col merged "obs_precip_mm");
  has_fc ::= zip_with orb (zip_with orb (notna <$> df_col merged "fc_tmax_c")
               (notna <$> df_col merged "fc_tmin_c"))
               (notna <$> df_col merged "fc_precip_mm");
  (* If historical exists, mark as historical/ECCC, otherwise forecast/OpenMeteo *)
  merged ::= df_set merged "data_type"
    (np_where has_hist (full merged (Str "historical"))
       (np_where has_fc (full merged (Str "forecast")) (full merged (Str "unknown"))));
  merged ::= df_set merged "source"
    (np_where has_hist (as_values merged (df_get merged "source_hist"))
       (np_where has_fc (as_values merged (df_get merged "source_fc")) (full merged NA)));
  (* 6. Remove temporary merged columns (_hist, _fc) *)
  drop_cols ::= filter (λ c, endswith c "_hist" || endswith c "_fc") (columns merged);
  merged ::= df_drop merged drop_cols;
  (* 7. Finalize schema order and formatting *)
  Ok (to_flat_schema merged).

End Transformation.

(** * Views of the transformation

    What the two functions do to one row and to one join group, the
    predicates the statements below are written with, a reference
    instance of the library and sample frames. *)

(** ** Rows and join groups *)

(** The loop that adds the missing columns, seen from one row. *)
Fixpoint fill_missing (cols labels : list string) (r : gmap string cell) : gmap string cell :=
  match labels with
  | [] => r
  | c :: labels =>
      if decide (c ∈ cols) then fill_missing cols labels r
      else fill_missing (cols ++ [c]) labels (<[c:=NA]> r)
  end.

(** The cell a frame with columns [cols] shows for row [r] once a missing
    column [c] has been created. *)
Definition get_cell (cols : list string) (r : gmap string cell) (c : string) : cell :=
  if decide (c ∈ cols) then cell_at r c else NA.

Definition strftime_cell (o : option Timestamp) : cell :=
  match o with Some t => Str (strftime t) | None => NA end.

Definition suffixed_labels : list string :=
  [ "ingested_at_hist"; "ingested_at_fc"; "obs_tmax_c_hist"; "obs_tmin_c_hist";
    "obs_precip_mm_hist"; "fc_tmax_c_fc"; "fc_tmin_c_fc"; "fc_precip_mm_fc";
    "source_hist"; "source_fc" ].

Definition merged_columns (lcols rcols : list string) : list string :=
  (suffixed rcols "_hist" <$> lcols) ++
  (suffixed lcols "_fc" <$> filter (λ c, c ≠ "date") rcols).

(** A frame [df] obtained from the join result [m] by row-wise updates:
    its rows are the images of the rows of [m] under [G], it still carries
    the labels of [m], and it carries the labels [L]. *)
Definition tracks (df m : DataFrame) (G : gmap string cell → gmap string cell)
    (L : list string) : Prop :=
  rows df = G <$> rows m ∧ columns m ⊆ columns df ∧ L ⊆ columns df.

(** The frames the producers hand over: the ten fields of a raw record,
    in any order. *)
Definition raw_schema (df : DataFrame) : Prop := columns df ≡ₚ FLAT_COLUMNS.

(** How the historical (or forecast) side [o] of a join group relates to
    the frame it comes from: it is a row of that frame with the key of
    the group, or the frame has no row with that key. *)
Definition side_of (df : DataFrame) (k : cell) (o : option (gmap string cell)) : Prop :=
  match o with
  | Some h => h ∈ rows df ∧ cell_at h "date" = k
  | None => ∀ h, h ∈ rows df → cell_at h "date" ≠ k
  end.

Definition has_observed (l : option (gmap string cell)) : bool :=
  notna (side_cell l "obs_tmax_c") || notna (side_cell l "obs_tmin_c")
  || notna (side_cell l "obs_precip_mm").

Definition has_forecast (r : option (gmap string cell)) : bool :=
  notna (side_cell r "fc_tmax_c") || notna (side_cell r "fc_tmin_c")
  || notna (side_cell r "fc_precip_mm").

(** Any of the three observed (forecast) fields of an output row is present. *)
Definition any_observed (row : gmap string cell) : bool :=
  notna (cell_at row "obs_tmax_c") || notna (cell_at row "obs_tmin_c")
  || notna (cell_at row "obs_precip_mm").

Definition any_forecast (row : gmap string cell) : bool :=
  notna (cell_at row "fc_tmax_c") || notna (cell_at row "fc_tmin_c")
  || notna (cell_at row "fc_precip_mm").


(** The three-way rule for [data_type] and [source]. *)
Definition classified (row : gmap string cell) (l r : option (gmap string cell)) : Prop :=
  if any_observed row then
    cell_at row "data_type" = Str "historical" ∧
    ∃ h, l = Some h ∧ cell_at row "source" = cell_at h "source"
  else if any_forecast row then
    cell_at row "data_type" = Str "forecast" ∧
    ∃ f, r = Some f ∧ cell_at row "source" = cell_at f "source"
  else
    cell_at row "data_type" = Str "unknown" ∧ cell_at row "source" = NA.


Section Views.
Context `{Pandas}.

(** The ISO string of a date cell, [<NA>] when it cannot be parsed. *)
Definition date_cell (c : cell) : cell :=
  match to_datetime c with
  | Some t => Str (isoformat (ts_date t))
  | None => NA
  end.

Definition select_flat (r : gmap string cell) : gmap string cell :=
  list_to_map ((λ c, (c, cell_at r c)) <$> FLAT_COLUMNS).

(** What [to_flat_schema] makes of one row of a frame with columns [cols]. *)
Definition flat_row (cols : list string) (r : gmap string cell) : gmap string cell :=
  let r := select_flat (fill_missing cols FLAT_COLUMNS r) in
  <["date" := date_cell (cell_at r "date")]> r.

Definition date_key (r : gmap string cell) : option string :=
  str_key (cell_at r "date").

(** The join groups of two frames: every key with its pairs of rows. *)
Definition joined (left right : DataFrame)
    : list (cell * (option (gmap string cell) * option (gmap string cell))) :=
  k ← merge_keys (keys left) (keys right);
  (λ p, (k, p)) <$> join_pairs (rows left) (rows right) k.

(** The successive states of one row of the join result through steps
    2 to 5 of [merge_flat]. *)
Definition row_latest (r : gmap string cell) : option Timestamp :=
  latest (to_datetime (cell_at r "ingested_at_hist"))
         (to_datetime (cell_at r "ingested_at_fc")).

Definition row_has_hist (r : gmap string cell) : bool :=
  notna (cell_at r "obs_tmax_c_hist") || notna (cell_at r "obs_tmin_c_hist")
  || notna (cell_at r "obs_precip_mm_hist").

Definition row_has_fc (r : gmap string cell) : bool :=
  notna (cell_at r "fc_tmax_c_fc") || notna (cell_at r "fc_tmin_c_fc")
  || notna (cell_at r "fc_precip_mm_fc").

Definition row1 (r : gmap string cell) := <["ingested_at" := stamp_cell (row_latest r)]> r.

Definition row2 r := <["ingested_at" := strftime_cell (row_latest r)]> (row1 r).

Definition row3 r := <["obs_tmax_c" := cell_at r "obs_tmax_c_hist"]> (row2 r).

Definition row4 r := <["obs_tmin_c" := cell_at r "obs_tmin_c_hist"]> (row3 r).

Definition row5 r := <["obs_precip_mm" := cell_at r "obs_precip_mm_hist"]> (row4 r).

Definition row6 r := <["fc_tmax_c" := cell_at r "fc_tmax_c_fc"]> (row5 r).

Definition row7 r := <["fc_tmin_c" := cell_at r "fc_tmin_c_fc"]> (row6 r).

Definition row8 r := <["fc_precip_mm" := cell_at r "fc_precip_mm_fc"]> (row7 r).

Definition row9 r :=
  <["data_type" := if row_has_hist r then Str "historical"
                   else if row_has_fc r then Str "forecast" else Str "unknown"]> (row8 r).

Definition resolved_row r :=
  <["source" := if row_has_hist r then cell_at r "source_hist"
                else if row_has_fc r then cell_at r "source_fc" else NA]> (row9 r).

(** The output row for the key [k] joined from the historical row [l]
    and the forecast row [r] (either may be missing). *)
Definition flat_record (k : cell) (l r : option (gmap string cell)) : gmap string cell :=
  list_to_map
    [ ("date", date_cell k);
      ("data_type", if has_observed l then Str "historical"
                    else if has_forecast r then Str "forecast" else Str "unknown");
      ("source", if has_observed l then side_cell l "source"
                 else if has_forecast r then side_cell r "source" else NA);
      ("ingested_at", strftime_cell (latest (to_datetime (side_cell l "ingested_at"))
                                            (to_datetime (side_cell r "ingested_at"))));
      ("obs_tmax_c", side_cell l "obs_tmax_c");
      ("obs_tmin_c", side_cell l "obs_tmin_c");
      ("obs_precip_mm", side_cell l "obs_precip_mm");
      ("fc_tmax_c", side_cell r "fc_tmax_c");
      ("fc_tmin_c", side_cell r "fc_tmin_c");
      ("fc_precip_mm", side_cell r "fc_precip_mm") ].

(** The join groups in the form the output rows are built from. *)
Definition flat_records (left right : DataFrame) : list (gmap string cell) :=
  (λ kp, flat_record kp.1 kp.2.1 kp.2.2) <$> joined left right.

End Views.


(** The reading of the claim that rows with an unparseable date are
    dropped: the output holds the normalized rows whose date parses. *)
Definition drops_unparseable `{Pandas} (df : DataFrame) : Prop :=
  rows (to_flat_schema df)
  ≡ₚ flat_row (columns df)
       <$> filter (λ r, is_Some (to_datetime (get_cell (columns df) r "date"))) (rows df).



(** ** Frames of any schema *)

(** A frame whose labels are pairwise distinct and none of which already
    ends in a suffix of the join. *)
Definition plain_labels (df : DataFrame) : Prop :=
  NoDup (columns df) ∧
  Forall (λ c, endswith c "_hist" = false ∧ endswith c "_fc" = false) (columns df).

(** The shapes of the cells [merge_flat] writes: a timestamp in the format
    of the schema (or nothing), and one of the three row types. *)
Definition stamp_string (v : cell) : Prop := v = NA ∨ ∃ t, v = Str (strftime t).

Definition data_type_value (v : cell) : Prop :=
  v = Str "historical" ∨ v = Str "forecast" ∨ v = Str "unknown".

Definition iso_string (v : cell) : Prop := v = NA ∨ ∃ d, v = Str (isoformat d).

(** The measurement fields with the label of the join result each one is
    read from. *)
Definition value_sources : list (string * string) :=
  [ ("obs_tmax_c", "obs_tmax_c_hist"); ("obs_tmin_c", "obs_tmin_c_hist");
    ("obs_precip_mm", "obs_precip_mm_hist"); ("fc_tmax_c", "fc_tmax_c_fc");
    ("fc_tmin_c", "fc_tmin_c_fc"); ("fc_precip_mm", "fc_precip_mm_fc") ].

Definition measurement_fields : list string :=
  [ "obs_tmax_c"; "obs_tmin_c"; "obs_precip_mm"; "fc_tmax_c"; "fc_tmin_c"; "fc_precip_mm" ].

(** What is known of a cell of column [c] once [merge_flat] has written
    the column, [m] being the join result. *)
Definition settled (m : DataFrame) (c : string) (v : cell) : Prop :=
  (c = "ingested_at" → stamp_string v) ∧
  (c = "data_type" → data_type_value v) ∧
  (∀ cs, (c, cs) ∈ value_sources → cs ∉ columns m → v = NA).

(** Every cell of column [c] of [df] satisfies [P]. *)
Definition col_all (df : DataFrame) (c : string) (P : cell → Prop) : Prop :=
  c ∈ columns df ∧ ∀ r, r ∈ rows df → P (cell_at r c).

(** The frame [df] on its way through [merge_flat]: it carries no label
    beyond those of the join result [m] and the flat fields, and the
    columns [L] written so far are settled. *)
Definition resolving (m df : DataFrame) (L : list string) : Prop :=
  (∀ x, x ∈ columns df → x ∈ columns m ∨ x ∈ FLAT_COLUMNS) ∧
  ∀ c, c ∈ L → col_all df c (settled m c).

(** ** A reference instance of the library

    ISO formats are parsed, join groups come in order of first appearance
    and rows are sorted by a merge sort.  It shows that the interface
    [Pandas] can be met and lets the model run on concrete frames. *)

Definition digit_value (a : ascii) : option N :=
  let n := N_of_ascii a in
  if (48 <=? n) && (n <=? 57) then Some (n - 48) else None.

Fixpoint parse_digits (acc : N) (s : string) : option N :=
  match s with
  | EmptyString => Some acc
  | String a s' =>
      match digit_value a with
      | Some v => parse_digits (10 * acc + v) s'
      | None => None
      end
  end.

Definition parse_number (s : string) : option N :=
  match s with EmptyString => None | _ => parse_digits 0 s end.

(** [YYYY-MM-DD]. *)
Definition parse_date (s : string) : option date :=
  if (String.length s =? 10)%nat && String.eqb (substring 4 1 s) "-"
     && String.eqb (substring 7 1 s) "-" then
    y ← parse_number (substring 0 4 s);
    m ← parse_number (substring 5 2 s);
    d ← parse_number (substring 8 2 s);
    if (1 <=? y) && (1 <=? m) && (m <=? 12) && (1 <=? d) && (d <=? 31)
    then Some (Date y m d) else None
  else None.

(** [HH:MM:SS]. *)
Definition parse_time (d : date) (s : string) : option Timestamp :=
  if (String.length s =? 8)%nat && String.eqb (substring 2 1 s) ":"
     && String.eqb (substring 5 1 s) ":" then
    h ← parse_number (substring 0 2 s);
    mi ← parse_number (substring 3 2 s);
    se ← parse_number (substring 6 2 s);
    if (h <=? 23) && (mi <=? 59) && (se <=? 59)
    then Some (MkTimestamp d h mi se 0) else None
  else None.

Definition parse_datetime (s : string) : option Timestamp :=
  if (String.length s =? 10)%nat then midnight <$> parse_date s
  else if String.eqb (substring 10 1 s) " " then
    d ← parse_date (substring 0 10 s);
    parse_time d (substring 11 (String.length s - 11) s)
  else None.

Definition ref_to_datetime (c : cell) : option Timestamp :=
  match c with
  | NA => None
  | Num _ => None
  | Str s => parse_datetime s
  | DateObj d => Some (midnight d)
  | Stamp t => Some t
  end.

Definition ref_merge_keys (l r : list cell) : list cell := remove_dups (l ++ r).

Global Instance key_le_dec : RelDecision key_le.
Proof. intros [x|] [y|]; simpl; apply _. Defined.

Global Instance by_key_dec {A : Type} (f : A → option string) : RelDecision (by_key f).
Proof. intros x y. unfold by_key. apply _. Defined.

Definition ref_sort_values {A : Type} (f : A → option string) (l : list A) : list A :=
  merge_sort (by_key f) l.

Global Instance key_le_trans : Transitive key_le.
Proof.
  assert (∀ a b, String.leb a b = true ↔ a = b ∨ String_as_OT.lt a b) as Hle.
  { intros a b. unfold String.leb.
    destruct (String.compare a b) eqn:E.
    - apply String_as_OT.cmp_eq in E. subst. split; auto.
    - apply String_as_OT.cmp_lt in E. split; auto.
    - split; [done |]. intros [-> | Hlt].
      + assert (String.compare b b = Eq) as E' by (by apply String_as_OT.cmp_eq).
        unfold String_as_OT.cmp in *. congruence.
      + apply String_as_OT.cmp_lt in Hlt. unfold String_as_OT.cmp in *. congruence. }
  intros [x|] [y|] [z|]; simpl; try done.
  rewrite !Hle. intros [-> | H1] [-> | H2]; auto.
  right. eapply String_as_OT.lt_trans; eauto.
Qed.

Global Instance key_le_total : Total key_le.
Proof.
  intros [x|] [y|]; simpl; auto. apply String.leb_total.
Qed.

Global Instance by_key_trans {A : Type} (f : A → option string) : Transitive (by_key f).
Proof. intros x y z. apply key_le_trans. Qed.

Global Instance by_key_total {A : Type} (f : A → option string) : Total (by_key f).
Proof. intros x y. apply key_le_total. Qed.

Definition ref_pandas : Pandas :=
  {| to_datetime := ref_to_datetime;
     to_datetime_NA := eq_refl;
     to_datetime_DateObj := ltac:(intros d t; simpl; congruence);
     merge_keys := ref_merge_keys;
     merge_keys_NoDup := λ l r, NoDup_remove_dups (l ++ r);
     merge_keys_elem := ltac:(intros k l r; unfold ref_merge_keys;
                              by rewrite elem_of_remove_dups, elem_of_app);
     sort_values := @ref_sort_values;
     sort_values_perm := λ A f l, merge_sort_Permutation (by_key f) l;
     sort_values_sorted := λ A f l, StronglySorted_merge_sort (by_key f) l |}.

(** ** Sample frames *)

(** Column order of the historical and of the forecast producer. *)
Definition hist_columns : list string :=
  [ "date"; "obs_tmax_c"; "obs_tmin_c"; "obs_precip_mm"; "data_type"; "source";
    "ingested_at"; "fc_tmax_c"; "fc_tmin_c"; "fc_precip_mm" ].

Definition fc_columns : list string :=
  [ "date"; "fc_tmax_c"; "fc_tmin_c"; "fc_precip_mm"; "data_type"; "source";
    "ingested_at"; "obs_tmax_c"; "obs_tmin_c"; "obs_precip_mm" ].

Definition hist_row (d tmax tmin precip ingested : cell) : gmap string cell :=
  list_to_map
    [ ("date", d); ("obs_tmax_c", tmax); ("obs_tmin_c", tmin); ("obs_precip_mm", precip);
      ("data_type", Str "historical"); ("source", Str "ECCC"); ("ingested_at", ingested);
      ("fc_tmax_c", NA); ("fc_tmin_c", NA); ("fc_precip_mm", NA) ].

Definition fc_row (d tmax tmin precip ingested : cell) : gmap string cell :=
  list_to_map
    [ ("date", d); ("fc_tmax_c", tmax); ("fc_tmin_c", tmin); ("fc_precip_mm", precip);
      ("data_type", Str "forecast"); ("source", Str "OpenMeteo"); ("ingested_at", ingested);
      ("obs_tmax_c", NA); ("obs_tmin_c", NA); ("obs_precip_mm", NA) ].

Definition day1 : cell := DateObj (Date 2024 3 1).

Definition day2 : cell := DateObj (Date 2024 3 2).

Definition day3 : cell := DateObj (Date 2024 3 3).

(** Two observed days, the first without any observation. *)
Definition sample_hist : DataFrame :=
  {| columns := hist_columns;
     rows := [ hist_row day2 (Num (5 # 1)) (Num (-3 # 1)) (Num (1 # 2)) (Str "2024-01-01 08:00:00");
               hist_row day1 NA NA NA (Str "2024-01-01 08:00:00") ] |}.

(** A forecast for the second day and for a day not observed yet. *)
Definition sample_fc : DataFrame :=
  {| columns := fc_columns;
     rows := [ fc_row day2 (Num (7 # 1)) (Num (0 # 1)) NA (Str "2024-01-01 09:00:00");
               fc_row day3 (Num (8 # 1)) (Num (1 # 1)) NA (Str "2024-01-01 09:00:00") ] |}.




(** A row whose date is not a date. *)
Definition bad_date_frame : DataFrame :=
  {| columns := hist_columns;
     rows := [ hist_row (Str "n/a") (Num (5 # 1)) NA NA (Str "2024-01-01 08:00:00") ] |}.

(** Frames that carry only some of the fields. *)
Definition narrow_hist : DataFrame :=
  {| columns := ["date"; "ingested_at"; "obs_tmax_c"];
     rows := [ list_to_map [ ("date", day1); ("ingested_at", Str "2024-01-01 08:00:00");
                             ("obs_tmax_c", Num (5 # 1)) ] ] |}.

Definition narrow_fc : DataFrame :=
  {| columns := ["date"; "ingested_at"; "station"];
     rows := [ list_to_map [ ("date", day1); ("ingested_at", Str "2024-01-01 09:00:00");
                             ("station", Str "YYZ") ] ] |}.

Definition result_frame (r : result DataFrame) : DataFrame :=
  match r with Ok df => df | Err _ => {| columns := []; rows := [] |} end.

Definition result_row (r : result DataFrame) (i : nat) : gmap string cell :=
  default ∅ (rows (result_frame r) !! i).

(** The output of the merge of the two sample frames, and its second row:
    the day both frames cover. *)
Definition sample_out : DataFrame :=
  result_frame (merge_flat (H:=ref_pandas) sample_hist sample_fc).

Definition sample_row : gmap string cell := default ∅ (rows sample_out !! 1%nat).

(** Its first row: a day with a historical row that holds no observation
    and without forecast. *)
Definition sample_bare_row : gmap string cell := default ∅ (rows sample_out !! 0%nat).

(** * The ingestion stage (ingestion.py)

    The two producers, from the point where the outside world has
    answered: [ingest_eccc] takes the frame [pd.read_csv] returned,
    [ingest_openmeteo] the [daily] object of the decoded response, and
    both take the wall-clock time of Toronto at which they stamp their
    rows. *)

(** [pd.to_numeric(_, errors="coerce")], taken cell by cell: the result is
    a number or missing.  Which cells read as numbers is left to the
    library. *)
Class Numeric := {
  to_numeric : cell → cell;
  to_numeric_coerce : ∀ c, to_numeric c = NA ∨ ∃ x, to_numeric c = Num x
}.

(** [now_toronto_iso()], [now] being [datetime.now(tz=TORONTO_TZ)]. *)
Definition now_toronto_iso (now : Timestamp) : string := strftime now.

(** [_first_match(df_cols, candidates)]: the loop over the candidates
    returns at the first one that is a column and raises [KeyError] when
    it runs out. *)
Fixpoint _first_match (df_cols candidates : list string) : result string :=
  match candidates with
  | [] => Err KeyError
  | name :: candidates =>
      if decide (name ∈ df_cols) then Ok name else _first_match df_cols candidates
  end.

(** A [datetime.date] or [NaT] as a cell. *)
Definition date_obj (o : option date) : cell :=
  match o with Some d => DateObj d | None => NA end.

(** [pd.DataFrame({c1: v1, ...})] from columns of [n] values each, the
    columns in the order of the dictionary. *)
Definition DataFrame_of (n : nat) (data : list (string * list cell)) : DataFrame :=
  foldl (λ df cv, df_set df cv.1 cv.2) {| columns := []; rows := replicate n ∅ |} data.

(** [d.get(key, [])] on the [daily] object of the response. *)
Definition dict_get (d : gmap string (list cell)) (key : string) : list cell :=
  default [] (d !! key).

(** The candidate header names of [ingest_eccc], by field. *)
Definition colmap_candidates (field : string) : list string :=
  if decide (field = "date") then ["Date"; "Date/Time"; "LOCAL_DATE"; "date"]
  else if decide (field = "tmax") then
    ["Max Temp (°C)"; "Maximum Temperature (°C)"; "Max Temp (C)"; "MAX_TEMPERATURE";
     "Max Temp"]
  else if decide (field = "tmin") then
    ["Min Temp (°C)"; "Minimum Temperature (°C)"; "Min Temp (C)"; "MIN_TEMPERATURE";
     "Min Temp"]
  else if decide (field = "precip") then
    ["Total Precip (mm)"; "Total Rain (mm)"; "Total Precipitation (mm)"; "TOTAL_PRECIP";
     "Precipitation"]
  else [].

(** The exceptions [ingest_openmeteo] raises once the response is decoded:
    its own [RuntimeError], and the [ValueError] of the frame constructor
    for arrays that do not have the length of the index. *)
Inductive ingest_error := RuntimeError | ValueError.

Inductive ingested :=
  | Frame (df : DataFrame)
  | Raised (e : ingest_error).

Section Ingestion.
Context `{Pandas} `{Numeric}.

(** [_to_series_date(values)]: the values converted to timestamps, then
    [.dt.date].  Wrapping a [DatetimeIndex] into a [Series] changes
    nothing in a list of cells. *)
Definition _to_series_date (values : list cell) : list cell :=
  ts ::= to_datetime <$> values;
  date_obj <$> dt_date ts.

(** [ingest_eccc(csv_path)], [df] being [pd.read_csv(csv_path)] and [now]
    the time the clock shows when the rows are stamped. *)
Definition ingest_eccc (df : DataFrame) (now : Timestamp) : result DataFrame :=
  c_date ← _first_match (columns df) (colmap_candidates "date");
  c_tmax ← _first_match (columns df) (colmap_candidates "tmax");
  c_tmin ← _first_match (columns df) (colmap_candidates "tmin");
  c_precip ← _first_match (columns df) (colmap_candidates "precip");
  out ::= DataFrame_of (length (rows df))
    [ ("date", _to_series_date (df_col df c_date));
      ("obs_tmax_c", to_numeric <$> df_col df c_tmax);
      ("obs_tmin_c", to_numeric <$> df_col df c_tmin);
      ("obs_precip_mm", to_numeric <$> df_col df c_precip) ];
  out ::= df_set out "data_type" (full out (Str "historical"));
  out ::= df_set out "source" (full out (Str "ECCC"));
  out ::= df_set out "ingested_at" (full out (Str (now_toronto_iso now)));
  (* For merge strategy, initialize forecast fields as missing *)
  out ::= df_set out "fc_tmax_c" (full out NA);
  out ::= df_set out "fc_tmin_c" (full out NA);
  out ::= df_set out "fc_precip_mm" (full out NA);
  Ok out.

(** [ingest_openmeteo(lat, lon, ...)] after the request has succeeded,
    [daily] being [payload.get("daily", {})].  The frame constructor takes
    its index from the series [dates] and raises [ValueError] for an array
    of another length. *)
Definition ingest_openmeteo (daily : gmap string (list cell)) (now : Timestamp) : ingested :=
  times ::= dict_get daily "time";
  (* If API returned nothing, fail fast so we know it *)
  if decide (times = []) then Raised RuntimeError else
  dates ::= _to_series_date times;
  (* Map API arrays to our fc_* fields *)
  fc_tmax ::= to_numeric <$> dict_get daily "temperature_2m_max";
  fc_tmin ::= to_numeric <$> dict_get daily "temperature_2m_min";
  fc_prcp ::= to_numeric <$> dict_get daily "precipitation_sum";
  if decide (length fc_tmax = length dates ∧ length fc_tmin = length dates ∧
             length fc_prcp = length dates) then
    out ::= DataFrame_of (length dates)
      [ ("date", dates); ("fc_tmax_c", fc_tmax); ("fc_tmin_c", fc_tmin);
        ("fc_precip_mm", fc_prcp) ];
    out ::= df_set out "data_type" (full out (Str "forecast"));
    out ::= df_set out "source" (full out (Str "OpenMeteo"));
    out ::= df_set out "ingested_at" (full out (Str (now_toronto_iso now)));
    (* For merge strategy, initialize observed fields as missing *)
    out ::= df_set out "obs_tmax_c" (full out NA);
    out ::= df_set out "obs_tmin_c" (full out NA);
    out ::= df_set out "obs_precip_mm" (full out NA);
    Frame out
  else Raised ValueError.

End Ingestion.

(** The record [ingest_eccc] builds from the row [r] of the file. *)
Definition eccc_record `{Pandas} `{Numeric} (c_date c_tmax c_tmin c_precip : string)
    (now : Timestamp) (r : gmap string cell) : gmap string cell :=
  hist_row (date_obj (ts_date <$> to_datetime (cell_at r c_date)))
           (to_numeric (cell_at r c_tmax)) (to_numeric (cell_at r c_tmin))
           (to_numeric (cell_at r c_precip)) (Str (strftime now)).

(** A reference instance: decimal integers are read as numbers. *)
Definition ref_to_numeric (c : cell) : cell :=
  match c with
  | Num x => Num x
  | Str s => match parse_number s with Some n => Num (Z.of_N n # 1) | None => NA end
  | _ => NA
  end.

Definition ref_numeric : Numeric :=
  {| to_numeric := ref_to_numeric;
     to_numeric_coerce := ltac:(intros [| x | s | d | t]; simpl; eauto;
                                destruct (parse_number s); eauto) |}.

(** A daily file of the archive and a decoded forecast response. *)
Definition sample_csv : DataFrame :=
  {| columns := ["Station"; "Date/Time"; "Max Temp (°C)"; "Min Temp (°C)";
                 "Total Precip (mm)"; "MAX_TEMPERATURE"];
     rows := [ list_to_map [ ("Station", Str "TORONTO CITY"); ("Date/Time", Str "2024-03-01");
                             ("Max Temp (°C)", Num (5 # 1)); ("Min Temp (°C)", Num (-3 # 1));
                             ("Total Precip (mm)", Str "M"); ("MAX_TEMPERATURE", Num (99 # 1)) ];
               list_to_map [ ("Station", Str "TORONTO CITY"); ("Date/Time", Str "2024-03-02");
                             ("Max Temp (°C)", NA); ("Min Temp (°C)", NA);
                             ("Total Precip (mm)", NA); ("MAX_TEMPERATURE", NA) ] ] |}.

Definition sample_daily : gmap string (list cell) :=
  list_to_map
    [ ("time", [Str "2024-03-02"; Str "2024-03-03"]);
      ("temperature_2m_max", [Num (7 # 1); Num (8 # 1)]);
      ("temperature_2m_min", [Num (0 # 1); NA]);
      ("precipitation_sum", [NA; NA]) ].

Definition sample_now : Timestamp := MkTimestamp (Date 2024 3 2) 8 0 0 0.

(** A number or a missing value; a calendar date or a missing value. *)
Definition number_or_absent (v : cell) : Prop := v = NA ∨ ∃ x, v = Num x.

Definition date_or_absent (v : cell) : Prop := v = NA ∨ ∃ d, v = DateObj d.

(** The three pairs of row type and source a merged row can show. *)
Definition labelled (row : gmap string cell) : Prop :=
  (cell_at row "data_type" = Str "historical" ∧ cell_at row "source" = Str "ECCC") ∨
  (cell_at row "data_type" = Str "forecast" ∧ cell_at row "source" = Str "OpenMeteo") ∨
  (cell_at row "data_type" = Str "unknown" ∧ cell_at row "source" = NA).

Definition ingest_fields : list string := ["date"; "tmax"; "tmin"; "precip"].

Definition ingested_frame (r : ingested) : DataFrame :=
  match r with Frame df => df | Raised _ => {| columns := []; rows := [] |} end.

(** What the two producers make of the samples. *)
Definition sample_eccc_df : DataFrame :=
  result_frame (@ingest_eccc ref_pandas ref_numeric sample_csv sample_now).

Definition sample_fc_df : DataFrame :=
  ingested_frame (@ingest_openmeteo ref_pandas ref_numeric sample_daily sample_now).

(** * Lemmas and theorems *)

#[local] Set Warnings "-clear-no-such-hyp".

(** ** Cells of updated rows *)

Lemma cell_at_insert (r : gmap string cell) c c' v :
  cell_at (<[c:=v]> r) c' = if decide (c = c') then v else cell_at r c'.
Proof. unfold cell_at. rewrite lookup_insert. by case_decide. Qed.

Lemma cell_at_insert_eq (r : gmap string cell) c v : cell_at (<[c:=v]> r) c = v.
Proof. rewrite cell_at_insert. by rewrite decide_True. Qed.

Lemma cell_at_insert_ne (r : gmap string cell) c c' v :
  c ≠ c' → cell_at (<[c:=v]> r) c' = cell_at r c'.
Proof. intros. rewrite cell_at_insert. by rewrite decide_False. Qed.

Lemma cell_at_foldr_delete (r : gmap string cell) labels c :
  c ∉ labels → cell_at (foldr delete r labels) c = cell_at r c.
Proof. intros. unfold cell_at. by rewrite lookup_foldr_delete_not_elem_of. Qed.

Lemma lookup_selected (g : string → cell) labels c :
  (list_to_map ((λ c, (c, g c)) <$> labels) : gmap string cell) !! c
  = if decide (c ∈ labels) then Some (g c) else None.
Proof.
  induction labels as [|c0 labels IH].
  - rewrite fmap_nil, list_to_map_nil, lookup_empty. by rewrite decide_False by set_solver.
  - rewrite fmap_cons, list_to_map_cons, lookup_insert. destruct (decide (c0 = c)) as [->|Hne].
    + rewrite decide_True; [done | set_solver].
    + rewrite IH. destruct (decide (c ∈ labels)).
      * rewrite decide_True; [done | set_solver].
      * rewrite decide_False; [done | set_solver].
Qed.

Lemma dom_selected (g : string → cell) labels :
  dom (list_to_map ((λ c, (c, g c)) <$> labels) : gmap string cell) = list_to_set labels.
Proof.
  apply set_eq. intros c. rewrite elem_of_dom, lookup_selected, elem_of_list_to_set.
  case_decide; split; intros; done.
Qed.

Lemma zip_with_fmap_same {A B C D} (f : B → C → D) (g : A → B) (h : A → C) l :
  zip_with f (g <$> l) (h <$> l) = (λ x, f (g x) (h x)) <$> l.
Proof. induction l as [|x l IH]; [done |]. cbn. by rewrite IH. Qed.

Lemma fmap_of_bind {A B C} (f : B → C) (g : A → list B) (l : list A) :
  f <$> (l ≫= g) = l ≫= (λ x, f <$> g x).
Proof.
  induction l as [|x l IH]; [done |]. by rewrite !bind_cons, fmap_app, IH.
Qed.

Lemma replicate_length_fmap {A B} (l : list A) (v : B) :
  replicate (length l) v = (λ _, v) <$> l.
Proof. induction l as [|x l IH]; [done |]. cbn. by rewrite IH. Qed.

Lemma elem_of_columns_df_set x df c values :
  x ∈ columns (df_set df c values) ↔ x ∈ columns df ∨ x = c.
Proof. simpl. case_decide; set_solver. Qed.

Lemma rows_df_set_fmap df c (g : gmap string cell → cell) :
  rows (df_set df c (g <$> rows df)) = (λ r, <[c := g r]> r) <$> rows df.
Proof.
  simpl. induction (rows df) as [|r l IH]; [done |]. cbn. by rewrite IH.
Qed.

(** ** [to_flat_schema], row by row *)

Section FlatSchemaFacts.
Context `{Pandas}.

Lemma rows_add_missing df labels :
  rows (foldl (λ out c, if decide (c ∈ columns out) then out
                        else df_set out c (full out NA)) df labels)
  = fill_missing (columns df) labels <$> rows df.
Proof.
  revert df. induction labels as [|c labels IH]; intros df; simpl.
  - by rewrite list_fmap_id.
  - case_decide as Hc; [apply IH |].
    rewrite IH. unfold full. rewrite replicate_length_fmap, rows_df_set_fmap.
    rewrite <- list_fmap_compose. apply list_fmap_ext. intros i r _.
    cbn. by case_decide.
Qed.

Lemma cell_at_fill_missing cols labels r c :
  cell_at (fill_missing cols labels r) c
  = if decide (c ∈ cols) then cell_at r c
    else if decide (c ∈ labels) then NA else cell_at r c.
Proof.
  revert cols r. induction labels as [|c0 labels IH]; intros cols r.
  - cbn [fill_missing]. repeat case_decide; try done; set_solver.
  - cbn [fill_missing]. destruct (decide (c0 ∈ cols)) as [Hc0|Hc0];
      rewrite IH, ?cell_at_insert; repeat case_decide; subst; try done; set_solver.
Qed.

Lemma rows_to_flat_schema df :
  rows (to_flat_schema df) = sort_values date_key (flat_row (columns df) <$> rows df).
Proof.
  unfold to_flat_schema, assign, df_sort_values. cbn [rows]. f_equal.
  unfold df_col, astype_string, dt_date. rewrite <- !list_fmap_compose.
  rewrite rows_df_set_fmap. cbn [rows df_select].
  rewrite rows_add_missing, <- !list_fmap_compose.
  apply list_fmap_ext. intros i r _. unfold compose.
  unfold flat_row, date_cell, select_flat, cell_at at 1.
  rewrite !lookup_selected, !decide_True by set_solver. cbn [default].
  by destruct (to_datetime _).
Qed.

Lemma columns_to_flat_schema df : columns (to_flat_schema df) = FLAT_COLUMNS.
Proof. done. Qed.

Lemma cell_at_select_flat r c :
  c ∈ FLAT_COLUMNS → cell_at (select_flat r) c = cell_at r c.
Proof.
  intros Hc. unfold cell_at at 1, select_flat. rewrite lookup_selected.
  by rewrite decide_True.
Qed.

Lemma flat_row_date cols r :
  cell_at (flat_row cols r) "date" = date_cell (get_cell cols r "date").
Proof.
  unfold flat_row. rewrite cell_at_insert_eq, cell_at_select_flat by set_solver.
  rewrite cell_at_fill_missing. unfold get_cell.
  case_decide; [done |]. by rewrite decide_True by set_solver.
Qed.

Lemma flat_row_value cols r c :
  c ∈ FLAT_COLUMNS → c ≠ "date" → cell_at (flat_row cols r) c = get_cell cols r c.
Proof.
  intros Hc Hne. unfold flat_row.
  rewrite cell_at_insert_ne, cell_at_select_flat by done.
  rewrite cell_at_fill_missing. unfold get_cell.
  case_decide; [done |]. by rewrite decide_True.
Qed.

Lemma dom_flat_row cols r : dom (flat_row cols r) = list_to_set FLAT_COLUMNS.
Proof.
  unfold flat_row, select_flat. rewrite dom_insert_L, dom_selected. set_solver.
Qed.

End FlatSchemaFacts.

(** ** The outer join *)

Section JoinFacts.
Context `{Pandas}.

Lemma pd_merge_Ok left right m :
  pd_merge left right = Ok m →
  "date" ∈ columns left ∧ "date" ∈ columns right ∧
  NoDup (merged_columns (columns left) (columns right)) ∧
  columns m = merged_columns (columns left) (columns right) ∧
  rows m = (λ kp, merged_row (columns left) (columns right) kp.1 kp.2) <$> joined left right.
Proof.
  unfold pd_merge. case_decide as Hd; [| done]. case_decide as Hn; [| done].
  intros [= <-]. destruct Hd. repeat split; try done.
  cbn [rows]. unfold joined. rewrite fmap_of_bind.
  apply list_bind_ext; [| done]. intros k. by rewrite <- list_fmap_compose.
Qed.

Lemma pd_merge_total left right :
  "date" ∈ columns left → "date" ∈ columns right →
  NoDup (merged_columns (columns left) (columns right)) →
  ∃ m, pd_merge left right = Ok m.
Proof.
  intros Hl Hr Hn. unfold pd_merge.
  rewrite decide_True by done. fold (merged_columns (columns left) (columns right)).
  rewrite decide_True by done. eauto.
Qed.

Lemma elem_of_merged_columns_hist lcols rcols c :
  c ∈ lcols → c ∈ rcols → c ≠ "date" → c +:+ "_hist" ∈ merged_columns lcols rcols.
Proof.
  intros Hl Hr Hne. unfold merged_columns. apply elem_of_app. left.
  apply list_elem_of_fmap. exists c. split; [| done].
  unfold suffixed. repeat case_decide; done.
Qed.

Lemma elem_of_merged_columns_fc lcols rcols c :
  c ∈ lcols → c ∈ rcols → c ≠ "date" → c +:+ "_fc" ∈ merged_columns lcols rcols.
Proof.
  intros Hl Hr Hne. unfold merged_columns. apply elem_of_app. right.
  apply list_elem_of_fmap. exists c. split.
  - unfold suffixed. repeat case_decide; done.
  - by apply list_elem_of_filter.
Qed.

Lemma elem_of_merged_columns_date lcols rcols :
  "date" ∈ lcols → "date" ∈ merged_columns lcols rcols.
Proof.
  intros Hl. unfold merged_columns. apply elem_of_app. left.
  apply list_elem_of_fmap. exists "date". split; [| done].
  unfold suffixed. repeat case_decide; done.
Qed.

Lemma merged_row_labels lcols rcols k p :
  (((λ c, (suffixed rcols "_hist" c,
           if decide (c = "date") then k else side_cell p.1 c)) <$> lcols) ++
   ((λ c, (suffixed lcols "_fc" c, side_cell p.2 c))
      <$> filter (λ c, c ≠ "date") rcols)).*1
  = merged_columns lcols rcols.
Proof.
  unfold merged_columns. rewrite fmap_app, <- !list_fmap_compose. done.
Qed.

Lemma cell_at_merged_row_hist lcols rcols k p c :
  NoDup (merged_columns lcols rcols) →
  c ∈ lcols → c ∈ rcols → c ≠ "date" →
  cell_at (merged_row lcols rcols k p) (c +:+ "_hist") = side_cell p.1 c.
Proof.
  intros Hn Hl Hr Hne.
  assert (merged_row lcols rcols k p !! (c +:+ "_hist") = Some (side_cell p.1 c)) as Hlk.
  { apply elem_of_list_to_map_1; [by rewrite merged_row_labels |].
    apply elem_of_app. left. apply list_elem_of_fmap. exists c. split; [| done].
    unfold suffixed. repeat case_decide; done. }
  unfold cell_at. by rewrite Hlk.
Qed.

Lemma cell_at_merged_row_fc lcols rcols k p c :
  NoDup (merged_columns lcols rcols) →
  c ∈ lcols → c ∈ rcols → c ≠ "date" →
  cell_at (merged_row lcols rcols k p) (c +:+ "_fc") = side_cell p.2 c.
Proof.
  intros Hn Hl Hr Hne.
  assert (merged_row lcols rcols k p !! (c +:+ "_fc") = Some (side_cell p.2 c)) as Hlk.
  { apply elem_of_list_to_map_1; [by rewrite merged_row_labels |].
    apply elem_of_app. right. apply list_elem_of_fmap. exists c. split.
    - unfold suffixed. repeat case_decide; done.
    - by apply list_elem_of_filter. }
  unfold cell_at. by rewrite Hlk.
Qed.

Lemma cell_at_merged_row_date lcols rcols k p :
  NoDup (merged_columns lcols rcols) → "date" ∈ lcols →
  cell_at (merged_row lcols rcols k p) "date" = k.
Proof.
  intros Hn Hl.
  assert (merged_row lcols rcols k p !! "date" = Some k) as Hlk.
  { apply elem_of_list_to_map_1; [by rewrite merged_row_labels |].
    apply elem_of_app. left. apply list_elem_of_fmap. exists "date". split; [| done].
    unfold suffixed. repeat case_decide; done. }
  unfold cell_at. by rewrite Hlk.
Qed.

End JoinFacts.

(** ** Field resolution, row by row *)

Lemma tracks_start m : tracks m m (λ r, r) [].
Proof. split; [by rewrite list_fmap_id | set_solver]. Qed.

Lemma tracks_set df m G L c values (V : gmap string cell → cell) :
  tracks df m G L → values = V <$> rows m →
  tracks (df_set df c values) m (λ r, <[c := V r]> (G r)) (c :: L).
Proof.
  intros (Hr & Hc & HL) ->. split; [| split].
  - cbn [rows df_set]. rewrite Hr.
    apply (zip_with_fmap_same (λ r v, <[c:=v]> r) G V).
  - intros x Hx. apply elem_of_columns_df_set. auto.
  - intros x Hx. apply elem_of_columns_df_set. set_solver.
Qed.

Lemma tracks_ext df m G G' L :
  tracks df m G L → (∀ r, G r = G' r) → tracks df m G' L.
Proof.
  intros (Hr & Hc & HL) HG. split; [| done].
  rewrite Hr. apply list_fmap_ext. auto.
Qed.

Lemma df_col_tracks df m G L c :
  tracks df m G L → df_col df c = (λ r, cell_at (G r) c) <$> rows m.
Proof. intros (Hr & _). unfold df_col. rewrite Hr. by rewrite <- list_fmap_compose. Qed.

Lemma as_values_tracks df m G L c :
  tracks df m G L → c ∈ columns m →
  as_values df (df_get df c) = (λ r, cell_at (G r) c) <$> rows m.
Proof.
  intros Ht Hc. pose proof Ht as (Hr & Hsub & HL).
  unfold df_get. rewrite decide_True by (by apply Hsub).
  cbn [as_values default]. eapply df_col_tracks; eauto.
Qed.

Lemma full_tracks df m G L v :
  tracks df m G L → full df v = (λ _, v) <$> rows m.
Proof.
  intros (Hr & _). unfold full. rewrite Hr, length_fmap. apply replicate_length_fmap.
Qed.

Lemma np_where_fmap {A} (B : A → bool) (X Y : A → cell) l :
  np_where (B <$> l) (X <$> l) (Y <$> l) = (λ r, if B r then X r else Y r) <$> l.
Proof.
  unfold np_where. induction l as [|r l IH]; [done |]. cbn. by rewrite IH.
Qed.

Lemma has_any_fmap {A} (X Y Z : A → cell) l :
  zip_with orb (zip_with orb (notna <$> (X <$> l)) (notna <$> (Y <$> l))) (notna <$> (Z <$> l))
  = (λ r, notna (X r) || notna (Y r) || notna (Z r)) <$> l.
Proof. induction l as [|r l IH]; [done |]. cbn. by rewrite IH. Qed.

Lemma assign_eq {A B} (v : A) (k : A → B) : assign v k = k v.
Proof. done. Qed.

Ltac bind_next x :=
  match goal with
  | |- context [assign ?e ?k] => set (x := e); rewrite (assign_eq x k); cbv beta
  end.

Section ResolutionFacts.
Context `{Pandas}.

Lemma combine_tracks m :
  "ingested_at_hist" ∈ columns m → "ingested_at_fc" ∈ columns m →
  combine (to_datetime_series (df_get m "ingested_at_hist"))
          (to_datetime_series (df_get m "ingested_at_fc"))
  = Ok (row_latest <$> rows m).
Proof.
  intros Hh Hf. unfold to_datetime_series, df_get. rewrite !decide_True by done.
  cbn [fmap option_fmap option_map combine]. f_equal.
  unfold df_col. rewrite <- !list_fmap_compose.
  apply (zip_with_fmap_same latest).
Qed.

Ltac cells :=
  unfold resolved_row, row9, row8, row7, row6, row5, row4, row3, row2, row1;
  repeat (rewrite cell_at_insert_eq || rewrite cell_at_insert_ne by done).

Lemma merge_flat_resolved left right m :
  pd_merge left right = Ok m →
  suffixed_labels ⊆ columns m →
  ∃ df drops,
    merge_flat left right = Ok (to_flat_schema df) ∧
    [ "data_type"; "source"; "ingested_at"; "obs_tmax_c"; "obs_tmin_c"; "obs_precip_mm";
      "fc_tmax_c"; "fc_tmin_c"; "fc_precip_mm" ] ⊆ columns df ∧
    (∀ c, c ∈ columns m → endswith c "_hist" || endswith c "_fc" = false → c ∈ columns df) ∧
    (∀ c, c ∈ drops → endswith c "_hist" || endswith c "_fc" = true) ∧
    rows df = (λ r, foldr delete (resolved_row r) drops) <$> rows m.
Proof.
  intros Hm Hs. unfold merge_flat. rewrite Hm.
  unfold mbind at 1, result_bind at 1.
  bind_next ia_hist. bind_next ia_fc. subst ia_hist ia_fc.
  rewrite combine_tracks by (apply Hs; compute_done).
  unfold mbind at 1, result_bind at 1.
  pose proof (tracks_start m) as T0.
  bind_next df1.
  eassert (tracks df1 m row1 _) as T1.
  { eapply tracks_set; [exact T0 |]. by rewrite <- list_fmap_compose. }
  clearbody df1. clear T0.
  bind_next df2.
  eassert (tracks df2 m row2 _) as T2.
  { eapply tracks_ext.
    - eapply tracks_set; [exact T1 |]. unfold dt_strftime.
      erewrite df_col_tracks by exact T1. by rewrite <- list_fmap_compose.
    - intros r. unfold row2, compose. f_equal. cells. by destruct (row_latest r). }
  clearbody df2. clear T1.
  bind_next df3.
  eassert (tracks df3 m row3 _) as T3.
  { eapply tracks_ext; [eapply tracks_set; [exact T2 |];
      eapply as_values_tracks; [exact T2 | apply Hs; compute_done] |].
    intros r. unfold row3. f_equal. by cells. }
  clearbody df3. clear T2.
  bind_next df4.
  eassert (tracks df4 m row4 _) as T4.
  { eapply tracks_ext; [eapply tracks_set; [exact T3 |];
      eapply as_values_tracks; [exact T3 | apply Hs; compute_done] |].
    intros r. unfold row4. f_equal. by cells. }
  clearbody df4. clear T3.
  bind_next df5.
  eassert (tracks df5 m row5 _) as T5.
  { eapply tracks_ext; [eapply tracks_set; [exact T4 |];
      eapply as_values_tracks; [exact T4 | apply Hs; compute_done] |].
    intros r. unfold row5. f_equal. by cells. }
  clearbody df5. clear T4.
  bind_next df6.
  eassert (tracks df6 m row6 _) as T6.
  { eapply tracks_ext; [eapply tracks_set; [exact T5 |];
      eapply as_values_tracks; [exact T5 | apply Hs; compute_done] |].
    intros r. unfold row6. f_equal. by cells. }
  clearbody df6. clear T5.
  bind_next df7.
  eassert (tracks df7 m row7 _) as T7.
  { eapply tracks_ext; [eapply tracks_set; [exact T6 |];
      eapply as_values_tracks; [exact T6 | apply Hs; compute_done] |].
    intros r. unfold row7. f_equal. by cells. }
  clearbody df7. clear T6.
  bind_next df8.
  eassert (tracks df8 m row8 _) as T8.
  { eapply tracks_ext; [eapply tracks_set; [exact T7 |];
      eapply as_values_tracks; [exact T7 | apply Hs; compute_done] |].
    intros r. unfold row8. f_equal. by cells. }
  clearbody df8. clear T7.
  bind_next has_hist.
  assert (has_hist = row_has_hist <$> rows m) as Hhh.
  { subst has_hist. erewrite !df_col_tracks by exact T8. rewrite has_any_fmap.
    apply list_fmap_ext. intros i r _. unfold row_has_hist. by cells. }
  clearbody has_hist. subst has_hist.
  bind_next has_fc.
  assert (has_fc = row_has_fc <$> rows m) as Hhf.
  { subst has_fc. erewrite !df_col_tracks by exact T8. rewrite has_any_fmap.
    apply list_fmap_ext. intros i r _. unfold row_has_fc. by cells. }
  clearbody has_fc. subst has_fc.
  bind_next df9.
  eassert (tracks df9 m row9 _) as T9.
  { eapply tracks_set; [exact T8 |].
    erewrite !full_tracks by exact T8. by rewrite !np_where_fmap. }
  clearbody df9. clear T8.
  bind_next df10.
  eassert (tracks df10 m resolved_row _) as T10.
  { eapply tracks_ext.
    - eapply tracks_set; [exact T9 |].
      erewrite full_tracks by exact T9.
      erewrite !as_values_tracks by first [exact T9 | apply Hs; compute_done].
      by rewrite !np_where_fmap.
    - intros r. unfold resolved_row. f_equal. by cells. }
  clearbody df10. clear T9.
  bind_next drops. bind_next df11.
  destruct T10 as (Hr & Hc & HL).
  exists df11, drops. split; [done |].
  assert (∀ c, c ∈ drops → endswith c "_hist" || endswith c "_fc" = true) as Hdrops.
  { intros c Hin. apply list_elem_of_filter in Hin as [He _]. by apply Is_true_true. }
  split; [| split; [| split; [done |]]].
  - intros c Hin. apply list_elem_of_filter. split; [| apply HL; set_solver].
    intros Hd. apply Hdrops in Hd. revert Hd.
    set_unfold in Hin. destruct_or!; subst; by vm_compute.
  - intros c Hin He. apply list_elem_of_filter. split; [| by apply Hc].
    intros Hd. apply Hdrops in Hd. congruence.
  - cbn [rows df_drop df11]. subst df11. cbn [rows df_drop].
    rewrite Hr. by rewrite <- list_fmap_compose.
Qed.

End ResolutionFacts.

(** ** The flat record of a join group *)

Section FlatRecordFacts.
Context `{Pandas}.

Lemma dom_flat_record k l r : dom (flat_record k l r) = list_to_set FLAT_COLUMNS.
Proof. unfold flat_record. by rewrite dom_list_to_map_L. Qed.

Lemma row_eq_by_cells (L : list string) (r1 r2 : gmap string cell) :
  dom r1 = list_to_set L → dom r2 = list_to_set L →
  (∀ c, c ∈ L → cell_at r1 c = cell_at r2 c) → r1 = r2.
Proof.
  intros H1 H2 Hc. apply map_eq. intros i.
  destruct (decide (i ∈ L)) as [Hi|Hi].
  - assert (is_Some (r1 !! i)) as [x1 Hx1] by (apply elem_of_dom; rewrite H1; set_solver).
    assert (is_Some (r2 !! i)) as [x2 Hx2] by (apply elem_of_dom; rewrite H2; set_solver).
    specialize (Hc i Hi). unfold cell_at in Hc. rewrite Hx1, Hx2 in Hc. simpl in Hc.
    congruence.
  - assert (r1 !! i = None) as -> by (apply not_elem_of_dom; rewrite H1; set_solver).
    symmetry. apply not_elem_of_dom. rewrite H2. set_solver.
Qed.

Ltac cells :=
  unfold resolved_row, row9, row8, row7, row6, row5, row4, row3, row2, row1;
  repeat (rewrite cell_at_insert_eq || rewrite cell_at_insert_ne by done).

Ltac record_cells :=
  unfold flat_record; rewrite !list_to_map_cons; cbn [fst snd];
  repeat (rewrite cell_at_insert_eq || rewrite cell_at_insert_ne by done).

Lemma out_row_flat_record lcols rcols cols drops k l r :
  NoDup (merged_columns lcols rcols) →
  FLAT_COLUMNS ⊆ lcols → FLAT_COLUMNS ⊆ rcols → FLAT_COLUMNS ⊆ cols →
  (∀ c, c ∈ drops → endswith c "_hist" || endswith c "_fc" = true) →
  flat_row cols (foldr delete (resolved_row (merged_row lcols rcols k (l, r))) drops)
  = flat_record k l r.
Proof.
  intros Hn Hl Hr Hc Hd.
  apply (row_eq_by_cells FLAT_COLUMNS); [apply dom_flat_row | apply dom_flat_record |].
  assert (∀ c, c ∈ FLAT_COLUMNS → c ∉ drops) as Hnd.
  { intros c Hin Hdr. apply Hd in Hdr. revert Hdr.
    set_unfold in Hin. destruct_or!; subst; by vm_compute. }
  assert (∀ c, c ∈ FLAT_COLUMNS → c ≠ "date" →
    cell_at (flat_row cols (foldr delete (resolved_row (merged_row lcols rcols k (l, r))) drops)) c
    = cell_at (resolved_row (merged_row lcols rcols k (l, r))) c) as Hv.
  { intros c Hin Hne. rewrite flat_row_value by done. unfold get_cell.
    rewrite decide_True by auto. by rewrite cell_at_foldr_delete by auto. }
  set (m0 := merged_row lcols rcols k (l, r)) in *.
  assert (cell_at m0 "date" = k) as E0
    by (apply cell_at_merged_row_date; [done | apply Hl; compute_done]).
  assert (cell_at m0 "ingested_at_hist" = side_cell l "ingested_at") as E1
    by (apply (cell_at_merged_row_hist lcols rcols k (l, r) "ingested_at");
        [done | apply Hl; compute_done | apply Hr; compute_done | done]).
  assert (cell_at m0 "ingested_at_fc" = side_cell r "ingested_at") as E2
    by (apply (cell_at_merged_row_fc lcols rcols k (l, r) "ingested_at");
        [done | apply Hl; compute_done | apply Hr; compute_done | done]).
  assert (cell_at m0 "obs_tmax_c_hist" = side_cell l "obs_tmax_c") as E3
    by (apply (cell_at_merged_row_hist lcols rcols k (l, r) "obs_tmax_c");
        [done | apply Hl; compute_done | apply Hr; compute_done | done]).
  assert (cell_at m0 "obs_tmin_c_hist" = side_cell l "obs_tmin_c") as E4
    by (apply (cell_at_merged_row_hist lcols rcols k (l, r) "obs_tmin_c");
        [done | apply Hl; compute_done | apply Hr; compute_done | done]).
  assert (cell_at m0 "obs_precip_mm_hist" = side_cell l "obs_precip_mm") as E5
    by (apply (cell_at_merged_row_hist lcols rcols k (l, r) "obs_precip_mm");
        [done | apply Hl; compute_done | apply Hr; compute_done | done]).
  assert (cell_at m0 "fc_tmax_c_fc" = side_cell r "fc_tmax_c") as E6
    by (apply (cell_at_merged_row_fc lcols rcols k (l, r) "fc_tmax_c");
        [done | apply Hl; compute_done | apply Hr; compute_done | done]).
  assert (cell_at m0 "fc_tmin_c_fc" = side_cell r "fc_tmin_c") as E7
    by (apply (cell_at_merged_row_fc lcols rcols k (l, r) "fc_tmin_c");
        [done | apply Hl; compute_done | apply Hr; compute_done | done]).
  assert (cell_at m0 "fc_precip_mm_fc" = side_cell r "fc_precip_mm") as E8
    by (apply (cell_at_merged_row_fc lcols rcols k (l, r) "fc_precip_mm");
        [done | apply Hl; compute_done | apply Hr; compute_done | done]).
  assert (cell_at m0 "source_hist" = side_cell l "source") as E9
    by (apply (cell_at_merged_row_hist lcols rcols k (l, r) "source");
        [done | apply Hl; compute_done | apply Hr; compute_done | done]).
  assert (cell_at m0 "source_fc" = side_cell r "source") as E10
    by (apply (cell_at_merged_row_fc lcols rcols k (l, r) "source");
        [done | apply Hl; compute_done | apply Hr; compute_done | done]).
  clearbody m0.
  intros c Hin. destruct (decide (c = "date")) as [->|Hne].
  - rewrite flat_row_date. unfold get_cell. rewrite decide_True by auto.
    rewrite cell_at_foldr_delete by auto. cells. rewrite E0. by record_cells.
  - rewrite Hv by done. clear Hv.
    set_unfold in Hin. destruct_or!; subst; try done; cells; record_cells;
      unfold row_latest, row_has_hist, row_has_fc, has_observed, has_forecast;
      by rewrite ?E1, ?E2, ?E3, ?E4, ?E5, ?E6, ?E7, ?E8, ?E9, ?E10.
Qed.

Lemma flat_record_date k l r : cell_at (flat_record k l r) "date" = date_cell k.
Proof. by record_cells. Qed.

Lemma flat_record_data_type k l r :
  cell_at (flat_record k l r) "data_type"
  = if has_observed l then Str "historical"
    else if has_forecast r then Str "forecast" else Str "unknown".
Proof. by record_cells. Qed.

Lemma flat_record_source k l r :
  cell_at (flat_record k l r) "source"
  = if has_observed l then side_cell l "source"
    else if has_forecast r then side_cell r "source" else NA.
Proof. by record_cells. Qed.

Lemma flat_record_ingested_at k l r :
  cell_at (flat_record k l r) "ingested_at"
  = strftime_cell (latest (to_datetime (side_cell l "ingested_at"))
                          (to_datetime (side_cell r "ingested_at"))).
Proof. by record_cells. Qed.

Lemma flat_record_observed k l r :
  cell_at (flat_record k l r) "obs_tmax_c" = side_cell l "obs_tmax_c" ∧
  cell_at (flat_record k l r) "obs_tmin_c" = side_cell l "obs_tmin_c" ∧
  cell_at (flat_record k l r) "obs_precip_mm" = side_cell l "obs_precip_mm".
Proof. repeat split; by record_cells. Qed.

Lemma flat_record_forecast k l r :
  cell_at (flat_record k l r) "fc_tmax_c" = side_cell r "fc_tmax_c" ∧
  cell_at (flat_record k l r) "fc_tmin_c" = side_cell r "fc_tmin_c" ∧
  cell_at (flat_record k l r) "fc_precip_mm" = side_cell r "fc_precip_mm".
Proof. repeat split; by record_cells. Qed.

Lemma merge_flat_rows_of_merge left right m :
  pd_merge left right = Ok m →
  FLAT_COLUMNS ⊆ columns left → FLAT_COLUMNS ⊆ columns right →
  ∃ out, merge_flat left right = Ok out ∧ columns out = FLAT_COLUMNS ∧
    rows out = sort_values date_key (flat_records left right).
Proof.
  intros Hm Hl Hr.
  destruct (pd_merge_Ok _ _ _ Hm) as (Hdl & Hdr & Hn & Hcols & Hrows).
  assert (suffixed_labels ⊆ columns m) as Hs.
  { rewrite Hcols. intros c Hin. set_unfold in Hin. destruct_or!; subst.
    all: first
      [ apply (elem_of_merged_columns_hist _ _ "ingested_at")
      | apply (elem_of_merged_columns_fc _ _ "ingested_at")
      | apply (elem_of_merged_columns_hist _ _ "obs_tmax_c")
      | apply (elem_of_merged_columns_hist _ _ "obs_tmin_c")
      | apply (elem_of_merged_columns_hist _ _ "obs_precip_mm")
      | apply (elem_of_merged_columns_fc _ _ "fc_tmax_c")
      | apply (elem_of_merged_columns_fc _ _ "fc_tmin_c")
      | apply (elem_of_merged_columns_fc _ _ "fc_precip_mm")
      | apply (elem_of_merged_columns_hist _ _ "source")
      | apply (elem_of_merged_columns_fc _ _ "source") ];
      first [ done | apply Hl; compute_done | apply Hr; compute_done ]. }
  destruct (merge_flat_resolved _ _ _ Hm Hs) as (df & drops & Hmf & HL & Hkeep & Hdrops & Hdf).
  exists (to_flat_schema df). split; [done |]. split; [done |].
  rewrite rows_to_flat_schema, Hdf, Hrows. unfold flat_records.
  rewrite <- !list_fmap_compose. f_equal.
  apply list_fmap_ext. intros i [k [l r]] _. unfold compose. cbn [fst snd].
  apply out_row_flat_record; try done.
  intros c Hin. destruct (decide (c = "date")) as [->|Hne].
  - apply Hkeep; [| done]. rewrite Hcols. by apply elem_of_merged_columns_date.
  - apply HL. set_unfold in Hin. set_unfold. tauto.
Qed.

Lemma raw_schema_columns df c : raw_schema df → c ∈ columns df ↔ c ∈ FLAT_COLUMNS.
Proof. intros Hp. unfold raw_schema in Hp. by rewrite Hp. Qed.

Lemma merged_columns_raw left right :
  raw_schema left → raw_schema right →
  NoDup (merged_columns (columns left) (columns right)).
Proof.
  unfold raw_schema. intros Hl Hr.
  assert (∀ cols s c, cols ≡ₚ FLAT_COLUMNS → suffixed cols s c = suffixed FLAT_COLUMNS s c) as Hsuf.
  { intros cols s c Hp. unfold suffixed. case_decide; [done |].
    assert (c ∈ cols ↔ c ∈ FLAT_COLUMNS) as Hiff by (by rewrite Hp).
    repeat case_decide; tauto. }
  assert (merged_columns (columns left) (columns right)
          ≡ₚ merged_columns FLAT_COLUMNS FLAT_COLUMNS) as ->.
  { unfold merged_columns. f_equiv.
    - rewrite (list_fmap_ext _ (suffixed FLAT_COLUMNS "_hist")) by (intros; by apply Hsuf).
      by apply fmap_Permutation.
    - rewrite (list_fmap_ext _ (suffixed FLAT_COLUMNS "_fc")) by (intros; by apply Hsuf).
      apply fmap_Permutation. by rewrite Hr. }
  compute_done.
Qed.

Lemma merge_flat_rows left right :
  raw_schema left → raw_schema right →
  ∃ out, merge_flat left right = Ok out ∧ columns out = FLAT_COLUMNS ∧
    rows out = sort_values date_key (flat_records left right).
Proof.
  intros Hl Hr.
  destruct (pd_merge_total left right) as [m Hm].
  - apply raw_schema_columns; [done | set_solver].
  - apply raw_schema_columns; [done | set_solver].
  - by apply merged_columns_raw.
  - apply (merge_flat_rows_of_merge _ _ m); [done | |];
      intros c Hc; by apply raw_schema_columns.
Qed.

End FlatRecordFacts.

(** ** The rows an outer join pairs up *)

Lemma elem_of_key_rows rs k h : h ∈ key_rows rs k ↔ cell_at h "date" = k ∧ h ∈ rs.
Proof. unfold key_rows. by rewrite list_elem_of_filter. Qed.

Lemma key_rows_nil rs k : key_rows rs k = [] → ∀ h, h ∈ rs → cell_at h "date" ≠ k.
Proof.
  intros Hnil h Hin Hk.
  assert (h ∈ key_rows rs k) as Hh by (by apply elem_of_key_rows).
  rewrite Hnil in Hh. by apply not_elem_of_nil in Hh.
Qed.

Lemma elem_of_join_pairs left right k l r :
  (l, r) ∈ join_pairs (rows left) (rows right) k →
  side_of left k l ∧ side_of right k r ∧ (is_Some l ∨ is_Some r).
Proof.
  unfold join_pairs.
  destruct (key_rows (rows left) k) as [|h lm] eqn:El;
    [| destruct (key_rows (rows right) k) as [|f rm] eqn:Er].
  - intros (f & [= -> ->] & Hf)%list_elem_of_fmap.
    apply elem_of_key_rows in Hf as [Hk Hf]. simpl.
    split; [by apply key_rows_nil |]. split; [done | right; eauto].
  - intros (h' & [= -> ->] & Hh)%list_elem_of_fmap.
    rewrite <- El in Hh. apply elem_of_key_rows in Hh as [Hk Hh]. simpl.
    split; [done |]. split; [by apply key_rows_nil | left; eauto].
  - intros (h' & (f' & Hp & Hf)%list_elem_of_bind & Hh)%list_elem_of_bind.
    apply list_elem_of_singleton in Hp as [= -> ->].
    rewrite <- El in Hh. rewrite <- Er in Hf.
    apply elem_of_key_rows in Hh as [? ?]. apply elem_of_key_rows in Hf as [? ?].
    simpl. split; [done |]. split; [done | left; eauto].
Qed.

Section JoinedFacts.
Context `{Pandas}.

Lemma elem_of_joined left right k l r :
  (k, (l, r)) ∈ joined left right ↔
  (k ∈ keys left ∨ k ∈ keys right) ∧ (l, r) ∈ join_pairs (rows left) (rows right) k.
Proof.
  unfold joined. rewrite list_elem_of_bind. split.
  - intros (k' & (p & [= -> ->] & Hp)%list_elem_of_fmap & Hk).
    by apply merge_keys_elem in Hk.
  - intros [Hk Hp]. exists k. split; [| by apply merge_keys_elem].
    apply list_elem_of_fmap. by exists (l, r).
Qed.

(** Every output row of a successful merge is the flat record of a join
    group. *)
Lemma merge_flat_row_inv eccc_df fc_df out row :
  merge_flat eccc_df fc_df = Ok out →
  FLAT_COLUMNS ⊆ columns eccc_df → FLAT_COLUMNS ⊆ columns fc_df →
  row ∈ rows out →
  ∃ k l r, row = flat_record k l r ∧ side_of eccc_df k l ∧ side_of fc_df k r ∧
           (is_Some l ∨ is_Some r).
Proof.
  intros Hout Hl Hr Hrow.
  destruct (pd_merge eccc_df fc_df) as [m|e] eqn:Hm.
  2: { unfold merge_flat in Hout. by rewrite Hm in Hout. }
  destruct (merge_flat_rows_of_merge _ _ _ Hm Hl Hr) as (out' & Hout' & _ & Hrows).
  rewrite Hout in Hout'. injection Hout' as <-.
  rewrite Hrows, sort_values_perm in Hrow.
  apply list_elem_of_fmap in Hrow as ([k [l r]] & -> & Hin).
  apply elem_of_joined in Hin as [_ Hin].
  apply elem_of_join_pairs in Hin as (? & ? & ?).
  exists k, l, r. eauto.
Qed.

End JoinedFacts.

(** ** ISO dates determine the date *)





(** ** Counting the rows of one key *)



Lemma filter_none {A} (P : A → Prop) `{!∀ x, Decision (P x)} (l : list A) :
  (∀ x, x ∈ l → ¬ P x) → filter P l = [].
Proof.
  induction l as [|a l IH]; intros Hn; [done |].
  rewrite filter_cons_False by (apply Hn; set_solver). apply IH. intros; apply Hn; set_solver.
Qed.



Lemma key_rows_cons r rs k :
  key_rows (r :: rs) k
  = if decide (cell_at r "date" = k) then r :: key_rows rs k else key_rows rs k.
Proof. unfold key_rows. by rewrite filter_cons. Qed.

Lemma key_rows_length_le rs k :
  NoDup ((λ r, cell_at r "date") <$> rs) → (length (key_rows rs k) ≤ 1)%nat.
Proof.
  induction rs as [|r rs IH]; intros Hnd; [simpl; lia |].
  rewrite fmap_cons in Hnd. apply NoDup_cons in Hnd as [Hr Hnd].
  rewrite key_rows_cons. case_decide as Hk; [| by apply IH].
  assert (key_rows rs k = []) as ->; [| simpl; lia].
  apply filter_none. intros h Hh Hhk. apply Hr.
  apply list_elem_of_fmap. exists h. split; [congruence | done].
Qed.

Lemma key_rows_length_ge rs k :
  k ∈ (λ r, cell_at r "date") <$> rs → (1 ≤ length (key_rows rs k))%nat.
Proof.
  intros (h & -> & Hh)%list_elem_of_fmap.
  assert (h ∈ key_rows rs (cell_at h "date")) as Hin by (by apply elem_of_key_rows).
  destruct (key_rows rs (cell_at h "date")); [by apply not_elem_of_nil in Hin | simpl; lia].
Qed.

Lemma key_rows_not_elem rs k :
  k ∉ (λ r, cell_at r "date") <$> rs → key_rows rs k = [].
Proof.
  intros Hk. apply filter_none. intros h Hh Hhk. apply Hk.
  apply list_elem_of_fmap. by exists h.
Qed.

Lemma length_join_pairs_one left right k :
  NoDup (keys left) → NoDup (keys right) → k ∈ keys left ∨ k ∈ keys right →
  length (join_pairs (rows left) (rows right) k) = 1%nat.
Proof.
  unfold keys, df_col. intros Hl Hr Hk.
  pose proof (key_rows_length_le (rows left) k Hl) as Hll.
  pose proof (key_rows_length_le (rows right) k Hr) as Hrl.
  assert ((1 ≤ length (key_rows (rows left) k))%nat ∨
          (1 ≤ length (key_rows (rows right) k))%nat) as Hge.
  { destruct Hk; [left | right]; by apply key_rows_length_ge. }
  unfold join_pairs.
  destruct (key_rows (rows left) k) as [|h [|h' lm]];
    destruct (key_rows (rows right) k) as [|f [|f' rm]]; simpl in *; lia.
Qed.

Lemma StronglySorted_lookup {A} (R : relation A) (l : list A) i j x y :
  StronglySorted R l → (i < j)%nat → l !! i = Some x → l !! j = Some y → R x y.
Proof.
  intros Hs. revert i j. induction Hs as [|a l Hs IH Hall]; intros i j Hij Hi Hj.
  - by rewrite lookup_nil in Hi.
  - destruct j as [|j]; [lia |]. destruct i as [|i].
    + injection Hi as <-. rewrite Forall_forall in Hall. apply Hall.
      by eapply list_elem_of_lookup_2.
    + simpl in Hi, Hj. apply (IH i j); [lia | done..].
Qed.

Ltac skip_next :=
  let x := fresh "v" in bind_next x; clearbody x.

(** ** Properties of the normalization pass and of the merge *)

Section SchemaClaims.
Context `{Pandas}.

Lemma merge_flat_Ok_inv eccc_df fc_df out :
  merge_flat eccc_df fc_df = Ok out → ∃ df, out = to_flat_schema df.
Proof.
  unfold merge_flat. destruct (pd_merge eccc_df fc_df) as [m|e]; [| done].
  unfold mbind at 1, result_bind at 1.
  do 2 skip_next.
  match goal with |- context [combine ?a ?b] => destruct (combine a b) as [ia|e] end;
    [| done].
  unfold mbind at 1, result_bind at 1.
  repeat skip_next. intros [= <-]. eauto.
Qed.

Lemma elem_of_rows_to_flat_schema df row :
  row ∈ rows (to_flat_schema df) ↔ ∃ r, r ∈ rows df ∧ row = flat_row (columns df) r.
Proof.
  rewrite rows_to_flat_schema, sort_values_perm, list_elem_of_fmap. naive_solver.
Qed.


End SchemaClaims.


Section NormalizationClaims.
Context `{Pandas}.

Lemma date_cell_cases c :
  (to_datetime c = None ∧ date_cell c = NA) ∨
  (∃ t, to_datetime c = Some t ∧ date_cell c = Str (isoformat (ts_date t))).
Proof. unfold date_cell. destruct (to_datetime c); eauto. Qed.

Lemma date_key_flat_row_None cols r :
  date_key (flat_row cols r) = None → cell_at (flat_row cols r) "date" = NA.
Proof.
  unfold date_key. rewrite flat_row_date.
  by destruct (date_cell_cases (get_cell cols r "date")) as [[_ ->]|(t & _ & ->)].
Qed.

(** C10. [to_flat_schema] preserves the row count: the output holds one
    normalized row per input row; a row whose date cannot be parsed is
    kept with an absent date, and no row with an absent date comes
    before a row with a date. *)
Theorem to_flat_schema_preserves_rows df :
  length (rows (to_flat_schema df)) = length (rows df) ∧
  (∀ r, r ∈ rows df → to_datetime (get_cell (columns df) r "date") = None →
     flat_row (columns df) r ∈ rows (to_flat_schema df) ∧
     cell_at (flat_row (columns df) r) "date" = NA) ∧
  (∀ i j x y, (i < j)%nat →
     rows (to_flat_schema df) !! i = Some x → rows (to_flat_schema df) !! j = Some y →
     cell_at x "date" = NA → cell_at y "date" = NA).
Proof.
  split; [| split].
  - by rewrite rows_to_flat_schema, sort_values_perm, length_fmap.
  - intros r Hr Hnone. split.
    + apply elem_of_rows_to_flat_schema. eauto.
    + rewrite flat_row_date. unfold date_cell. by rewrite Hnone.
  - intros i j x y Hij Hx Hy Hna.
    assert (y ∈ rows (to_flat_schema df)) as (r & _ & ->)%elem_of_rows_to_flat_schema
      by (by eapply list_elem_of_lookup_2).
    apply date_key_flat_row_None.
    pose proof (sort_values_sorted _ date_key (flat_row (columns df) <$> rows df)) as Hs.
    rewrite <- rows_to_flat_schema in Hs.
    pose proof (StronglySorted_lookup _ _ _ _ _ _ Hs Hij Hx Hy) as Hle.
    unfold by_key, date_key in Hle. rewrite Hna in Hle. simpl in Hle.
    unfold date_key. by destruct (str_key _).
Qed.

(** C5, as the code has it: the normalization pass drops no row.  The
    output is a rearrangement of the normalized input rows, a row whose
    date cannot be parsed is among them with an absent date, and the
    merge of two raw-schema frames returns a frame whatever their date
    cells hold. *)
Theorem unparseable_dates_are_kept :
  (∀ df, rows (to_flat_schema df) ≡ₚ flat_row (columns df) <$> rows df) ∧
  (∀ df r, r ∈ rows df → to_datetime (get_cell (columns df) r "date") = None →
     ∃ row, row ∈ rows (to_flat_schema df) ∧ cell_at row "date" = NA ∧
            ∀ c, c ∈ FLAT_COLUMNS → c ≠ "date" →
                 cell_at row c = get_cell (columns df) r c) ∧
  (∀ eccc_df fc_df, raw_schema eccc_df → raw_schema fc_df →
     ∃ out, merge_flat eccc_df fc_df = Ok out).
Proof.
  split; [| split].
  - intros df. by rewrite rows_to_flat_schema, sort_values_perm.
  - intros df r Hr Hnone. exists (flat_row (columns df) r). split; [| split].
    + apply elem_of_rows_to_flat_schema. eauto.
    + rewrite flat_row_date. unfold date_cell. by rewrite Hnone.
    + intros c Hc Hne. by apply flat_row_value.
  - intros eccc_df fc_df Hl Hr.
    destruct (merge_flat_rows eccc_df fc_df Hl Hr) as (out & Hout & _). eauto.
Qed.

(** X16. The rows of the output of [to_flat_schema] are the normalized
    input rows in ascending order of the ISO date string, the rows
    without a date last: of two output rows that both carry a date
    string, the earlier row never has the greater string. *)
Theorem to_flat_schema_sorted df :
  StronglySorted (by_key date_key) (rows (to_flat_schema df)) ∧
  rows (to_flat_schema df) ≡ₚ flat_row (columns df) <$> rows df ∧
  (∀ i j x y s t, (i < j)%nat →
     rows (to_flat_schema df) !! i = Some x → rows (to_flat_schema df) !! j = Some y →
     cell_at x "date" = Str s → cell_at y "date" = Str t → String.leb s t = true).
Proof.
  assert (StronglySorted (by_key date_key) (rows (to_flat_schema df))) as Hs.
  { rewrite rows_to_flat_schema. apply sort_values_sorted. }
  split; [done |]. split.
  - by rewrite rows_to_flat_schema, sort_values_perm.
  - intros i j x y s t Hij Hx Hy Hxs Hyt.
    pose proof (StronglySorted_lookup _ _ _ _ _ _ Hs Hij Hx Hy) as Hle.
    unfold by_key, date_key in Hle. by rewrite Hxs, Hyt in Hle.
Qed.

End NormalizationClaims.

(** C5, counterexample: the frame [bad_date_frame] has one row, its date
    is not parseable, and the row is in the output. *)
Lemma unparseable_date_not_dropped : ¬ drops_unparseable (H:=ref_pandas) bad_date_frame.
Proof.
  unfold drops_unparseable. intros Hp. apply Permutation_length in Hp.
  vm_compute in Hp. discriminate.
Qed.

Section MergeClaims.
Context `{Pandas}.


(** C4. Classification precedence: in every output row of [merge_flat],
    if one of the three observed fields is present the row is
    ["historical"] and its source is that of the historical row of its
    join group; else, if one of the three forecast fields is present,
    the row is ["forecast"] with the source of the forecast row; else the
    row is ["unknown"] and has no source. *)
Theorem data_type_and_source_precedence eccc_df fc_df out row :
  merge_flat eccc_df fc_df = Ok out →
  FLAT_COLUMNS ⊆ columns eccc_df → FLAT_COLUMNS ⊆ columns fc_df →
  row ∈ rows out →
  ∃ k l r, side_of eccc_df k l ∧ side_of fc_df k r ∧
    cell_at row "date" = date_cell k ∧ classified row l r.
Proof.
  intros Hout Hl Hr Hrow.
  destruct (merge_flat_row_inv _ _ _ _ Hout Hl Hr Hrow) as (k & l & r & -> & Hsl & Hsr & _).
  exists k, l, r. split; [done |]. split; [done |].
  split; [apply flat_record_date |].
  destruct (flat_record_observed k l r) as (O1 & O2 & O3).
  destruct (flat_record_forecast k l r) as (F1 & F2 & F3).
  unfold classified, any_observed, any_forecast.
  rewrite O1, O2, O3, F1, F2, F3, flat_record_data_type, flat_record_source.
  fold (has_observed l). fold (has_forecast r).
  destruct (has_observed l) eqn:Ho; [| destruct (has_forecast r) eqn:Hf].
  - split; [done |]. destruct l as [h|]; [eauto | done].
  - split; [done |]. destruct r as [f|]; [eauto | done].
  - done.
Qed.

End MergeClaims.


Lemma data_type_and_source_precedence_witness :
  ∃ k l r, side_of sample_hist k l ∧ side_of sample_fc k r ∧
    cell_at sample_bare_row "date" = date_cell (H:=ref_pandas) k ∧
    classified sample_bare_row l r.
Proof.
  apply (data_type_and_source_precedence (H:=ref_pandas) sample_hist sample_fc sample_out).
  - vm_compute. reflexivity.
  - compute_done.
  - compute_done.
  - compute_done.
Defined.




Section CompletenessClaims.
Context `{Pandas}.







End CompletenessClaims.








(** What the function given to [combine] returns in each of the three
    cases: the later timestamp when both sides have one, the historical
    one when only that side has one, and nothing as soon as the
    historical side has none. *)
Lemma latest_cases (a b : Timestamp) (o : option Timestamp) :
  latest (Some a) (Some b) = Some (match ts_compare b a with Gt => b | _ => a end) ∧
  latest (Some a) None = Some a ∧
  latest None o = None.
Proof.
  unfold latest, py_max, py_gt. simpl. split; [| split].
  - by destruct (ts_compare b a).
  - done.
  - by destruct o.
Qed.

Section IngestedAt.
Context `{Pandas}.

(** In every output row of a merge whose historical side has no parseable
    timestamp, [ingested_at] is absent, whatever the forecast side holds. *)
Lemma ingested_at_needs_historical_timestamp eccc_df fc_df out row :
  merge_flat eccc_df fc_df = Ok out →
  FLAT_COLUMNS ⊆ columns eccc_df → FLAT_COLUMNS ⊆ columns fc_df →
  row ∈ rows out →
  ∃ k l r, side_of eccc_df k l ∧ side_of fc_df k r ∧
    cell_at row "date" = date_cell k ∧
    (to_datetime (side_cell l "ingested_at") = None → cell_at row "ingested_at" = NA).
Proof.
  intros Hout Hl Hr Hrow.
  destruct (merge_flat_row_inv _ _ _ _ Hout Hl Hr Hrow) as (k & l & r & -> & Hsl & Hsr & _).
  exists k, l, r. split; [done |]. split; [done |].
  split; [apply flat_record_date |].
  intros Hnone. rewrite flat_record_ingested_at, Hnone.
  by destruct (latest_cases (midnight (Date 1 1 1)) (midnight (Date 1 1 1))
                 (to_datetime (side_cell r "ingested_at"))) as (_ & _ & ->).
Qed.

End IngestedAt.

(** C3, at the failing input.  In the sample frames the third of March is
    forecast only: the forecast row carries the timestamp
    [2024-01-01 09:00:00] and no historical row has that date.  The output
    row of that date has no [ingested_at], where the three-way rule asks
    for the forecast timestamp; the row of the second of March, which both
    frames cover, gets the later of its two timestamps. *)
Theorem ingested_at_lost_for_forecast_only_date :
  merge_flat (H:=ref_pandas) sample_hist sample_fc = Ok sample_out ∧
  (∃ f, f ∈ rows sample_fc ∧ cell_at f "date" = day3 ∧
        cell_at f "ingested_at" = Str "2024-01-01 09:00:00" ∧
        is_Some (to_datetime (Pandas:=ref_pandas) (cell_at f "ingested_at"))) ∧
  (∀ h, h ∈ rows sample_hist → cell_at h "date" ≠ day3) ∧
  (∃ row, rows sample_out !! 2%nat = Some row ∧
          cell_at row "date" = Str "2024-03-03" ∧
          cell_at row "fc_tmax_c" = Num (8 # 1) ∧
          cell_at row "ingested_at" = NA) ∧
  (∃ row, rows sample_out !! 1%nat = Some row ∧
          cell_at row "date" = Str "2024-03-02" ∧
          cell_at row "ingested_at" = Str "2024-01-01 09:00:00").
Proof.
  split; [vm_compute; reflexivity |]. split; [| split; [| split]].
  - exists (fc_row day3 (Num (8 # 1)) (Num (1 # 1)) NA (Str "2024-01-01 09:00:00")).
    split; [compute_done |]. split; [vm_compute; reflexivity |].
    split; [vm_compute; reflexivity |]. vm_compute. eauto.
  - intros h Hh. apply list_elem_of_In in Hh. cbn [rows sample_hist In] in Hh.
    destruct Hh as [<- | [<- | []]]; vm_compute; discriminate.
  - exists (result_row (merge_flat (H:=ref_pandas) sample_hist sample_fc) 2).
    split; [| split; [| split]]; vm_compute; reflexivity.
  - exists (result_row (merge_flat (H:=ref_pandas) sample_hist sample_fc) 1).
    split; [| split]; vm_compute; reflexivity.
Qed.

(** * Further properties of the transformation *)

(** ** Suffixes of labels *)

Lemma string_app_cons a (s t : string) : String a s +:+ t = String a (s +:+ t).
Proof. done. Qed.

Lemma string_app_nil_r (s : string) : s +:+ "" = s.
Proof. induction s as [|a s IH]; [done |]. by rewrite string_app_cons, IH. Qed.

Lemma string_length_app (s t : string) :
  String.length (s +:+ t) = (String.length s + String.length t)%nat.
Proof. induction s as [|a s IH]; simpl; [done | by rewrite IH]. Qed.

Lemma substring_all (s : string) : substring 0 (String.length s) s = s.
Proof. induction s as [|a s IH]; simpl; [done | by rewrite IH]. Qed.

Lemma substring_app_r (s t : string) (n m : nat) :
  substring (String.length s + n) m (s +:+ t) = substring n m t.
Proof. induction s as [|a s IH]; simpl; [done | apply IH]. Qed.

Lemma string_app_inj_r (s t u : string) : s +:+ u = t +:+ u → s = t.
Proof.
  revert t. induction s as [|a s IH]; intros [|b t] Heq; simpl in *.
  - done.
  - apply (f_equal String.length) in Heq.
    rewrite !string_length_app in Heq. simpl in Heq. lia.
  - apply (f_equal String.length) in Heq.
    rewrite !string_length_app in Heq. simpl in Heq. lia.
  - injection Heq as -> Heq. f_equal. by apply IH.
Qed.

(** Whether a suffixed label ends with [u] is decided by the suffix. *)
Lemma endswith_app (s t u : string) :
  (String.length u ≤ String.length t)%nat → endswith (s +:+ t) u = endswith t u.
Proof.
  intros Hle. unfold endswith. rewrite !string_length_app.
  rewrite !(proj2 (Nat.leb_le _ _)) by lia.
  replace (String.length s + String.length t - String.length u)%nat
    with (String.length s + (String.length t - String.length u))%nat by lia.
  by rewrite substring_app_r.
Qed.

(** ** ISO strings order as the dates do *)

Lemma N_add_compare (p n m : N) : (p + n ?= p + m) = (n ?= m).
Proof.
  destruct (N.compare_spec n m) as [-> | Hlt | Hgt].
  - apply N.compare_refl.
  - apply N.compare_lt_iff. lia.
  - apply N.compare_gt_iff. lia.
Qed.

Lemma ascii_compare_digit a b :
  Ascii.compare (digit a) (digit b) = (a mod 10 ?= b mod 10).
Proof.
  unfold Ascii.compare, digit.
  pose proof (N.mod_upper_bound a 10). pose proof (N.mod_upper_bound b 10).
  rewrite !N_ascii_embedding by lia. apply N_add_compare.
Qed.

Lemma lex_compare_digits (q q' r r' : N) :
  r < 10 → r' < 10 →
  lex (q ?= q') (r ?= r') = (10 * q + r ?= 10 * q' + r').
Proof.
  intros Hr Hr'. symmetry.
  destruct (N.compare_spec q q') as [-> | Hq | Hq]; simpl.
  - apply N_add_compare.
  - apply N.compare_lt_iff. lia.
  - apply N.compare_gt_iff. lia.
Qed.

Lemma compare_pad2 a b s t :
  a < 100 → b < 100 →
  String.compare (pad2 a +:+ s) (pad2 b +:+ t) = lex (a ?= b) (String.compare s t).
Proof.
  intros Ha Hb. unfold pad2. rewrite !string_app_cons. cbn [String.compare].
  rewrite !ascii_compare_digit.
  assert (a / 10 < 10) by (apply N.Div0.div_lt_upper_bound; lia).
  assert (b / 10 < 10) by (apply N.Div0.div_lt_upper_bound; lia).
  rewrite !(N.mod_small (_ / 10)) by done.
  pose proof (N.mod_upper_bound a 10). pose proof (N.mod_upper_bound b 10).
  pose proof (lex_compare_digits (a / 10) (b / 10) (a mod 10) (b mod 10)) as Hlex.
  rewrite <- !N.Div0.div_mod in Hlex. rewrite <- Hlex by lia.
  by destruct (a / 10 ?= b / 10), (a mod 10 ?= b mod 10).
Qed.

Lemma compare_pad4 a b s t :
  a < 10000 → b < 10000 →
  String.compare (pad4 a +:+ s) (pad4 b +:+ t) = lex (a ?= b) (String.compare s t).
Proof.
  intros Ha Hb. unfold pad4, pad2. rewrite !string_app_cons. cbn [String.compare].
  rewrite !ascii_compare_digit.
  assert (a / 1000 < 10) by (apply N.Div0.div_lt_upper_bound; lia).
  assert (b / 1000 < 10) by (apply N.Div0.div_lt_upper_bound; lia).
  rewrite !(N.mod_small (_ / 1000)) by done.
  pose proof (N.mod_upper_bound a 10). pose proof (N.mod_upper_bound b 10).
  pose proof (N.mod_upper_bound (a / 10) 10). pose proof (N.mod_upper_bound (b / 10) 10).
  pose proof (N.mod_upper_bound (a / 100) 10). pose proof (N.mod_upper_bound (b / 100) 10).
  pose proof (lex_compare_digits (a / 10) (b / 10) (a mod 10) (b mod 10)) as L1.
  pose proof (lex_compare_digits (a / 100) (b / 100) ((a / 10) mod 10) ((b / 10) mod 10)) as L2.
  pose proof (lex_compare_digits (a / 1000) (b / 1000) ((a / 100) mod 10) ((b / 100) mod 10))
    as L3.
  replace (a / 100) with (a / 10 / 10) in * by (by rewrite N.Div0.div_div).
  replace (a / 1000) with (a / 10 / 10 / 10) in * by (by rewrite !N.Div0.div_div).
  replace (b / 100) with (b / 10 / 10) in * by (by rewrite N.Div0.div_div).
  replace (b / 1000) with (b / 10 / 10 / 10) in * by (by rewrite !N.Div0.div_div).
  rewrite <- !N.Div0.div_mod in L1, L2, L3.
  rewrite <- L1, <- L2, <- L3 by lia.
  by destruct (a / 10 / 10 / 10 ?= b / 10 / 10 / 10),
    ((a / 10 / 10) mod 10 ?= (b / 10 / 10) mod 10),
    ((a / 10) mod 10 ?= (b / 10) mod 10), (a mod 10 ?= b mod 10).
Qed.

Lemma compare_isoformat d1 d2 :
  valid_date d1 → valid_date d2 →
  String.compare (isoformat d1) (isoformat d2) = date_compare d1 d2.
Proof.
  destruct d1 as [y1 m1 a1], d2 as [y2 m2 a2].
  unfold valid_date, isoformat, date_compare. cbn [year month day].
  intros V1 V2.
  rewrite compare_pad4 by lia. f_equal.
  change (String.compare ("-" +:+ ?s) ("-" +:+ ?t)) with (String.compare s t).
  rewrite compare_pad2 by lia. f_equal.
  change (String.compare ("-" +:+ ?s) ("-" +:+ ?t)) with (String.compare s t).
  rewrite <- (string_app_nil_r (pad2 a1)), <- (string_app_nil_r (pad2 a2)).
  rewrite compare_pad2 by lia. by destruct (a1 ?= a2).
Qed.

(** ** Counting join groups *)

Lemma length_bind_singletons {A B} (f : A → list B) (l : list A) :
  (∀ x, x ∈ l → length (f x) = 1%nat) → length (l ≫= f) = length l.
Proof.
  induction l as [|x l IH]; intros Hf; [done |].
  rewrite bind_cons, length_app, Hf by left. simpl. f_equal.
  apply IH. intros y Hy. apply Hf. by right.
Qed.

Lemma NoDup_union_length {A} `{EqDecision A} (u a b : list A) :
  NoDup u → NoDup a → NoDup b → (∀ x, x ∈ u ↔ x ∈ a ∨ x ∈ b) →
  length u = (length a + length (filter (λ x, x ∉ a) b))%nat.
Proof.
  intros Hu Ha Hb Helem. rewrite <- length_app. apply Permutation_length.
  apply NoDup_Permutation; [done | |].
  - apply NoDup_app. split; [done |]. split; [| by apply NoDup_filter].
    intros x Hx [Hn _]%list_elem_of_filter. done.
  - intros x. rewrite Helem, elem_of_app, list_elem_of_filter.
    destruct (decide (x ∈ a)); naive_solver.
Qed.

Section OrderFacts.
Context `{Pandas}.

(** X1. The rows [to_flat_schema] returns are in chronological order: of
    two rows that carry the ISO strings of two calendar dates, the earlier
    row never has the later date. *)
Theorem to_flat_schema_chronological df i j x y d1 d2 :
  (i < j)%nat →
  rows (to_flat_schema df) !! i = Some x → rows (to_flat_schema df) !! j = Some y →
  cell_at x "date" = Str (isoformat d1) → cell_at y "date" = Str (isoformat d2) →
  valid_date d1 → valid_date d2 →
  date_compare d1 d2 ≠ Gt.
Proof.
  intros Hij Hx Hy Hdx Hdy V1 V2.
  rewrite rows_to_flat_schema in Hx, Hy.
  pose proof (StronglySorted_lookup _ _ _ _ _ _
                (sort_values_sorted _ date_key _) Hij Hx Hy) as Hle.
  unfold by_key, date_key in Hle. rewrite Hdx, Hdy in Hle. simpl in Hle.
  unfold String.leb in Hle. rewrite compare_isoformat in Hle by done.
  by destruct (date_compare d1 d2).
Qed.

(** X2. Two raw frames that each hold a date at most once merge into one
    row per distinct date: as many rows as the historical frame has, plus
    one for every forecast date the historical frame does not hold. *)
Theorem merge_flat_row_count eccc_df fc_df :
  raw_schema eccc_df → raw_schema fc_df →
  NoDup (keys eccc_df) → NoDup (keys fc_df) →
  ∃ out, merge_flat eccc_df fc_df = Ok out ∧
    length (rows out)
    = (length (rows eccc_df)
       + length (filter (λ k, k ∉ keys eccc_df) (keys fc_df)))%nat.
Proof.
  intros Hl Hr Dl Dr.
  destruct (merge_flat_rows eccc_df fc_df Hl Hr) as (out & Hout & _ & Hrows).
  exists out. split; [done |].
  rewrite Hrows, sort_values_perm. unfold flat_records, joined.
  rewrite length_fmap, length_bind_singletons.
  - rewrite (NoDup_union_length _ (keys eccc_df) (keys fc_df));
      [| apply merge_keys_NoDup | done | done | intros x; apply merge_keys_elem].
    unfold keys at 1, df_col. by rewrite length_fmap.
  - intros k Hk%merge_keys_elem. rewrite length_fmap.
    by apply length_join_pairs_one.
Qed.


End OrderFacts.

Lemma to_flat_schema_chronological_witness :
  date_compare (Date 2024 3 1) (Date 2024 3 2) ≠ Gt.
Proof.
  apply (to_flat_schema_chronological (H:=ref_pandas) sample_hist 0 1
           (default ∅ (rows (to_flat_schema (H:=ref_pandas) sample_hist) !! 0%nat))
           (default ∅ (rows (to_flat_schema (H:=ref_pandas) sample_hist) !! 1%nat))).
  - lia.
  - compute_done.
  - compute_done.
  - compute_done.
  - compute_done.
  - unfold valid_date. cbn [year month day]. lia.
  - unfold valid_date. cbn [year month day]. lia.
Defined.

Lemma merge_flat_row_count_witness :
  ∃ out, merge_flat (H:=ref_pandas) sample_hist sample_fc = Ok out ∧
    length (rows out)
    = (length (rows sample_hist)
       + length (filter (λ k, k ∉ keys sample_hist) (keys sample_fc)))%nat.
Proof.
  apply (merge_flat_row_count (H:=ref_pandas) sample_hist sample_fc); compute_done.
Defined.


(** ** Labels of the join result *)

Lemma suffixed_inj other s x y :
  endswith s s = true → endswith "date" s = false →
  endswith x s = false → endswith y s = false →
  suffixed other s x = suffixed other s y → x = y.
Proof.
  intros Hs Hdate Hx Hy. unfold suffixed.
  assert (∀ z, endswith (z +:+ s) s = true) as Hsuf.
  { intros z. by rewrite endswith_app. }
  destruct (decide (x = "date")) as [-> | Hxd], (decide (y = "date")) as [-> | Hyd];
    repeat case_decide; intros Heq; try done.
  - rewrite Heq, Hsuf in Hdate. done.
  - rewrite <- Heq, Hsuf in Hdate. done.
  - by apply string_app_inj_r in Heq.
  - rewrite <- Heq, Hsuf in Hy. done.
  - rewrite Heq, Hsuf in Hx. done.
Qed.

Lemma merged_columns_plain left right :
  plain_labels left → plain_labels right →
  NoDup (merged_columns (columns left) (columns right)).
Proof.
  intros [Dl Pl] [Dr Pr]. rewrite Forall_forall in Pl, Pr.
  assert (∀ z, endswith (z +:+ "_hist") "_hist" = true) as Hh.
  { intros z. by rewrite endswith_app. }
  assert (∀ z, endswith (z +:+ "_fc") "_fc" = true) as Hf.
  { intros z. by rewrite endswith_app. }
  assert (∀ z, endswith (z +:+ "_hist") "_fc" = false) as Hhf.
  { intros z. by rewrite endswith_app by (simpl; lia). }
  unfold merged_columns. apply NoDup_app. split; [| split].
  - apply NoDup_fmap_2_strong; [| done]. intros x y Hx Hy.
    apply suffixed_inj; try done; by apply Pl.
  - intros c (x & -> & Hx)%list_elem_of_fmap (y & Heq & [Hyd Hy]%list_elem_of_filter)%list_elem_of_fmap.
    destruct (Pl x Hx) as [Hxh Hxf], (Pr y Hy) as [Hyh Hyf].
    unfold suffixed in Heq. repeat case_decide; subst; try done.
    + pose proof (Hf y) as E. by rewrite <- Heq in E.
    + pose proof (Hf y) as E. by rewrite <- Heq, Hhf in E.
    + by rewrite Hh in Hyh.
    + by rewrite Hf in Hxf.
  - apply NoDup_fmap_2_strong; [| by apply NoDup_filter].
    intros x y [_ Hx]%list_elem_of_filter [_ Hy]%list_elem_of_filter.
    apply suffixed_inj; try done; by apply Pr.
Qed.

Lemma elem_of_merged_columns_hist_inv left right c :
  plain_labels left → plain_labels right →
  c +:+ "_hist" ∈ merged_columns (columns left) (columns right) →
  c ∈ columns left ∧ c ∈ columns right.
Proof.
  intros [Dl Pl] [Dr Pr]. rewrite Forall_forall in Pl, Pr.
  assert (∀ z, endswith (z +:+ "_hist") "_hist" = true) as Hh.
  { intros z. by rewrite endswith_app. }
  assert (∀ z, endswith (z +:+ "_hist") "_fc" = false) as Hhf.
  { intros z. by rewrite endswith_app by (simpl; lia). }
  assert (∀ z, endswith (z +:+ "_fc") "_fc" = true) as Hf.
  { intros z. by rewrite endswith_app. }
  unfold merged_columns. rewrite elem_of_app, !list_elem_of_fmap.
  intros [(x & Heq & Hx) | (y & Heq & [Hyd Hy]%list_elem_of_filter)].
  - destruct (Pl x Hx) as [Hxh Hxf]. unfold suffixed in Heq.
    repeat case_decide; subst.
    + pose proof (Hh c) as E. by rewrite Heq in E.
    + by apply string_app_inj_r in Heq as ->.
    + by rewrite Hh in Hxh.
  - destruct (Pr y Hy) as [Hyh Hyf]. unfold suffixed in Heq.
    repeat case_decide; subst; try done.
    + pose proof (Hf y) as E. by rewrite <- Heq, Hhf in E.
    + by rewrite Hh in Hyh.
Qed.

Lemma elem_of_merged_columns_fc_inv left right c :
  plain_labels left → plain_labels right →
  c +:+ "_fc" ∈ merged_columns (columns left) (columns right) →
  c ∈ columns left ∧ c ∈ columns right.
Proof.
  intros [Dl Pl] [Dr Pr]. rewrite Forall_forall in Pl, Pr.
  assert (∀ z, endswith (z +:+ "_hist") "_hist" = true) as Hh.
  { intros z. by rewrite endswith_app. }
  assert (∀ z, endswith (z +:+ "_hist") "_fc" = false) as Hhf.
  { intros z. by rewrite endswith_app by (simpl; lia). }
  assert (∀ z, endswith (z +:+ "_fc") "_fc" = true) as Hf.
  { intros z. by rewrite endswith_app. }
  unfold merged_columns. rewrite elem_of_app, !list_elem_of_fmap.
  intros [(x & Heq & Hx) | (y & Heq & [Hyd Hy]%list_elem_of_filter)].
  - destruct (Pl x Hx) as [Hxh Hxf]. unfold suffixed in Heq.
    repeat case_decide; subst.
    + pose proof (Hf c) as E. by rewrite Heq in E.
    + pose proof (Hf c) as E. by rewrite Heq, Hhf in E.
    + by rewrite Hf in Hxf.
  - destruct (Pr y Hy) as [Hyh Hyf]. unfold suffixed in Heq.
    repeat case_decide; subst; try done.
    + by apply string_app_inj_r in Heq as ->.
    + by rewrite Hf in Hyf.
Qed.

(** ** Columns settled on the way through [merge_flat] *)

Lemma col_all_set df c values P : Forall P values → col_all (df_set df c values) c P.
Proof.
  intros HP. split; [apply elem_of_columns_df_set; by right |].
  intros r Hr. cbn [rows df_set] in Hr.
  apply elem_of_zip_with in Hr as (r0 & v & -> & _ & Hv).
  rewrite cell_at_insert_eq. rewrite Forall_forall in HP. by apply HP.
Qed.

Lemma col_all_set_ne df c c' values P :
  c ≠ c' → col_all df c P → col_all (df_set df c' values) c P.
Proof.
  intros Hne [Hc HP]. split; [apply elem_of_columns_df_set; by left |].
  intros r Hr. cbn [rows df_set] in Hr.
  apply elem_of_zip_with in Hr as (r0 & v & -> & Hr0 & _).
  rewrite cell_at_insert_ne by done. by apply HP.
Qed.

Lemma col_all_drop df c labels P :
  c ∉ labels → col_all df c P → col_all (df_drop df labels) c P.
Proof.
  intros Hn [Hc HP]. split.
  - cbn [columns df_drop]. by apply list_elem_of_filter.
  - intros r (r0 & -> & Hr0)%list_elem_of_fmap.
    rewrite cell_at_foldr_delete by done. by apply HP.
Qed.

Lemma resolving_start m : resolving m m [].
Proof. split; [by left | by intros c ?%elem_of_nil]. Qed.

Lemma resolving_set m df L c values :
  resolving m df L → c ∈ FLAT_COLUMNS → Forall (settled m c) values →
  resolving m (df_set df c values) (c :: L).
Proof.
  intros [Hcols HL] Hc Hv. split.
  - intros x [Hx | ->]%elem_of_columns_df_set; [by apply Hcols | by right].
  - intros c' Hc'. destruct (decide (c' = c)) as [-> | Hne].
    + by apply col_all_set.
    + apply col_all_set_ne; [done |]. apply HL.
      apply elem_of_cons in Hc' as [? | ?]; done.
Qed.

Lemma resolving_skip m df L c values :
  resolving m df L → c ∈ FLAT_COLUMNS → c ∉ L →
  resolving m (df_set df c values) L.
Proof.
  intros [Hcols HL] Hc Hn. split.
  - intros x [Hx | ->]%elem_of_columns_df_set; [by apply Hcols | by right].
  - intros c' Hc'. apply col_all_set_ne; [| by apply HL]. by intros ->.
Qed.

Lemma settled_strftime m values : Forall (settled m "ingested_at") (dt_strftime values).
Proof.
  apply Forall_fmap, Forall_forall. intros v _. split; [| split].
  - intros _. destruct v; try (by left). right. by eexists.
  - done.
  - intros cs Hin. revert Hin. unfold value_sources. set_unfold. naive_solver.
Qed.

Lemma np_where_Forall (P : cell → Prop) cond x y :
  Forall P x → Forall P y → Forall P (np_where cond x y).
Proof.
  rewrite !Forall_forall. intros Hx Hy v Hv. unfold np_where in Hv.
  apply elem_of_zip_with in Hv as (b & [a1 a2] & -> & _ & Hp).
  destruct b; simpl.
  - apply Hx. by eapply elem_of_zip_l.
  - apply Hy. by eapply elem_of_zip_r.
Qed.

Lemma settled_data_type m df cond1 cond2 :
  Forall (settled m "data_type")
    (np_where cond1 (full df (Str "historical"))
       (np_where cond2 (full df (Str "forecast")) (full df (Str "unknown")))).
Proof.
  assert (∀ v, data_type_value v → settled m "data_type" v) as Hs.
  { intros v Hv. split; [done | split; [done |]].
    intros cs Hin. revert Hin. unfold value_sources. set_unfold. naive_solver. }
  repeat apply np_where_Forall; apply Forall_replicate, Hs; unfold data_type_value; auto.
Qed.

Lemma settled_source m values : Forall (settled m "source") values.
Proof.
  apply Forall_forall. intros v _. split; [done | split; [done |]].
  intros cs Hin. revert Hin. unfold value_sources. set_unfold. naive_solver.
Qed.

Lemma settled_value m df L c cs :
  resolving m df L → (c, cs) ∈ value_sources →
  Forall (settled m c) (as_values df (df_get df cs)).
Proof.
  intros [Hcols _] Hin. apply Forall_forall. intros v Hv.
  assert (c ≠ "ingested_at" ∧ c ≠ "data_type" ∧ (cs ∉ FLAT_COLUMNS) ∧
          (∀ cs', (c, cs') ∈ value_sources → cs' = cs)) as (H1 & H2 & H3 & H4).
  { revert Hin. unfold value_sources. set_unfold.
    intros Hin. destruct_or!; simplify_eq; (split; [done |]); (split; [done |]);
      (split; [compute_done |]); intros cs' Hcs'; destruct_or!; by simplify_eq. }
  split; [done | split; [done |]].
  intros cs' ->%H4 Hn. unfold df_get in Hv. case_decide as Hd.
  - apply Hcols in Hd as [? | ?]; done.
  - simpl in Hv. by apply elem_of_replicate_inv in Hv.
Qed.

Section SettledFacts.
Context `{Pandas}.

Lemma col_all_to_flat_schema df c P row :
  col_all df c P → c ∈ FLAT_COLUMNS → c ≠ "date" →
  row ∈ rows (to_flat_schema df) → P (cell_at row c).
Proof.
  intros [Hc HP] Hf Hd (r & Hr & ->)%elem_of_rows_to_flat_schema.
  rewrite flat_row_value by done. unfold get_cell. rewrite decide_True by done.
  by apply HP.
Qed.

Lemma merge_flat_settled eccc_df fc_df out :
  merge_flat eccc_df fc_df = Ok out →
  ∃ m, pd_merge eccc_df fc_df = Ok m ∧
    ∀ row c, row ∈ rows out → c ∈ FLAT_COLUMNS → c ≠ "date" → settled m c (cell_at row c).
Proof.
  unfold merge_flat. destruct (pd_merge eccc_df fc_df) as [m|e] eqn:Hm; [| done].
  unfold mbind at 1, result_bind at 1.
  do 2 skip_next.
  match goal with |- context [combine ?a ?b] => destruct (combine a b) as [ia|e] end;
    [| done].
  unfold mbind at 1, result_bind at 1.
  pose proof (resolving_start m) as R.
  bind_next df1.
  assert (resolving m df1 []) as R1.
  { apply resolving_skip; [done | compute_done | apply not_elem_of_nil]. }
  clearbody df1. clear R.
  bind_next df2.
  assert (resolving m df2 ["ingested_at"]) as R2.
  { apply resolving_set; [done | compute_done | apply settled_strftime]. }
  clearbody df2. clear R1.
  bind_next df3.
  eassert (resolving m df3 _) as R3.
  { apply resolving_set; [exact R2 | compute_done |].
    eapply settled_value; [exact R2 | compute_done]. }
  clearbody df3. clear R2.
  bind_next df4.
  eassert (resolving m df4 _) as R4.
  { apply resolving_set; [exact R3 | compute_done |].
    eapply settled_value; [exact R3 | compute_done]. }
  clearbody df4. clear R3.
  bind_next df5.
  eassert (resolving m df5 _) as R5.
  { apply resolving_set; [exact R4 | compute_done |].
    eapply settled_value; [exact R4 | compute_done]. }
  clearbody df5. clear R4.
  bind_next df6.
  eassert (resolving m df6 _) as R6.
  { apply resolving_set; [exact R5 | compute_done |].
    eapply settled_value; [exact R5 | compute_done]. }
  clearbody df6. clear R5.
  bind_next df7.
  eassert (resolving m df7 _) as R7.
  { apply resolving_set; [exact R6 | compute_done |].
    eapply settled_value; [exact R6 | compute_done]. }
  clearbody df7. clear R6.
  bind_next df8.
  eassert (resolving m df8 _) as R8.
  { apply resolving_set; [exact R7 | compute_done |].
    eapply settled_value; [exact R7 | compute_done]. }
  clearbody df8. clear R7.
  do 2 skip_next.
  bind_next df9.
  eassert (resolving m df9 _) as R9.
  { apply resolving_set; [exact R8 | compute_done | apply settled_data_type]. }
  clearbody df9. clear R8.
  bind_next df10.
  eassert (resolving m df10 _) as R10.
  { apply resolving_set; [exact R9 | compute_done | apply settled_source]. }
  clearbody df10. clear R9.
  bind_next drops. bind_next df11.
  intros [= <-]. exists m. split; [done |].
  intros row c Hrow Hc Hd.
  apply (col_all_to_flat_schema df11 c); [| done..].
  subst df11. apply col_all_drop.
  - subst drops. intros [He _]%list_elem_of_filter. apply Is_true_true in He.
    revert He. set_unfold in Hc. destruct_or!; subst; by vm_compute.
  - apply R10. set_unfold in Hc. destruct_or!; subst; try done; compute_done.
Qed.

End SettledFacts.

Section GeneralInputs.
Context `{Pandas}.

(** X4. For frames with plain labels the outcome of [merge_flat] is
    decided by two columns: without a [date] column on both sides it
    raises [KeyError]; with it, but without [ingested_at] on both sides,
    it raises [AttributeError]; otherwise it returns a frame with the flat
    columns. *)
Theorem merge_flat_outcome eccc_df fc_df :
  plain_labels eccc_df → plain_labels fc_df →
  (¬ ("date" ∈ columns eccc_df ∧ "date" ∈ columns fc_df) →
     merge_flat eccc_df fc_df = Err KeyError) ∧
  ("date" ∈ columns eccc_df → "date" ∈ columns fc_df →
   ¬ ("ingested_at" ∈ columns eccc_df ∧ "ingested_at" ∈ columns fc_df) →
     merge_flat eccc_df fc_df = Err AttributeError) ∧
  ("date" ∈ columns eccc_df → "date" ∈ columns fc_df →
   "ingested_at" ∈ columns eccc_df → "ingested_at" ∈ columns fc_df →
     ∃ out, merge_flat eccc_df fc_df = Ok out ∧ columns out = FLAT_COLUMNS).
Proof.
  intros Pl Pr. split; [| split].
  - intros Hn. unfold merge_flat, pd_merge. by rewrite decide_False.
  - intros Dl Dr Hn.
    destruct (pd_merge_total eccc_df fc_df Dl Dr (merged_columns_plain _ _ Pl Pr)) as [m Hm].
    pose proof (pd_merge_Ok _ _ _ Hm) as (_ & _ & _ & Hcols & _).
    unfold merge_flat. rewrite Hm. unfold mbind at 1, result_bind at 1.
    bind_next ia_hist.
    assert (ia_hist = None) as ->.
    { subst ia_hist. unfold df_get. rewrite decide_False; [done |].
      rewrite Hcols. intros Hin. apply Hn.
      by apply (elem_of_merged_columns_hist_inv eccc_df fc_df "ingested_at"). }
    by skip_next.
  - intros Dl Dr Il Ir.
    destruct (pd_merge_total eccc_df fc_df Dl Dr (merged_columns_plain _ _ Pl Pr)) as [m Hm].
    pose proof (pd_merge_Ok _ _ _ Hm) as (_ & _ & _ & Hcols & _).
    unfold merge_flat. rewrite Hm. unfold mbind at 1, result_bind at 1.
    bind_next ia_hist. bind_next ia_fc. subst ia_hist ia_fc.
    rewrite combine_tracks.
    + unfold mbind at 1, result_bind at 1. repeat skip_next.
      eexists. split; [done |]. apply columns_to_flat_schema.
    + rewrite Hcols. by apply (elem_of_merged_columns_hist _ _ "ingested_at").
    + rewrite Hcols. by apply (elem_of_merged_columns_fc _ _ "ingested_at").
Qed.

(** X5. Whatever the inputs, the cells of a returned frame have the
    formats of the flat schema: [date] is an ISO date string or absent,
    [ingested_at] a timestamp string or absent, and [data_type] is one of
    the three row types. *)
Theorem merge_flat_cell_formats eccc_df fc_df out row :
  merge_flat eccc_df fc_df = Ok out → row ∈ rows out →
  iso_string (cell_at row "date") ∧
  stamp_string (cell_at row "ingested_at") ∧
  data_type_value (cell_at row "data_type").
Proof.
  intros Hout Hrow.
  destruct (merge_flat_settled _ _ _ Hout) as (m & _ & Hs). split; [| split].
  - destruct (merge_flat_Ok_inv _ _ _ Hout) as [df ->].
    apply elem_of_rows_to_flat_schema in Hrow as (r & _ & ->).
    rewrite flat_row_date.
    destruct (date_cell_cases (get_cell (columns df) r "date"))
      as [[_ ->] | (t & _ & ->)]; [by left | right; by eexists].
  - by apply (Hs row "ingested_at" Hrow); [compute_done | ..].
  - by apply (Hs row "data_type" Hrow); [compute_done | ..].
Qed.

(** X6. A measurement field reaches the output only when both inputs
    carry its column: if either frame lacks it, the field is absent in
    every output row, also where the other frame holds a value. *)
Theorem measurement_needs_both_frames eccc_df fc_df out c row :
  merge_flat eccc_df fc_df = Ok out →
  plain_labels eccc_df → plain_labels fc_df →
  c ∈ measurement_fields →
  c ∉ columns eccc_df ∨ c ∉ columns fc_df →
  row ∈ rows out → cell_at row c = NA.
Proof.
  intros Hout Pl Pr Hc Hn Hrow.
  destruct (merge_flat_settled _ _ _ Hout) as (m & Hm & Hs).
  pose proof (pd_merge_Ok _ _ _ Hm) as (_ & _ & _ & Hcols & _).
  assert (c ∈ FLAT_COLUMNS ∧ c ≠ "date" ∧
          ((c, c +:+ "_hist") ∈ value_sources ∨ (c, c +:+ "_fc") ∈ value_sources))
    as (Hf & Hd & Hsrc).
  { unfold measurement_fields in Hc. set_unfold in Hc.
    destruct_or!; subst; (split; [compute_done |]); (split; [done |]);
      first [left; compute_done | right; compute_done]. }
  destruct (Hs row c Hrow Hf Hd) as (_ & _ & Hv).
  destruct Hsrc as [Hsrc | Hsrc]; apply (Hv _ Hsrc); rewrite Hcols; intros Hin.
  - apply (elem_of_merged_columns_hist_inv _ _ _ Pl Pr) in Hin. tauto.
  - apply (elem_of_merged_columns_fc_inv _ _ _ Pl Pr) in Hin. tauto.
Qed.

End GeneralInputs.

Lemma narrow_hist_plain : plain_labels narrow_hist.
Proof. split; [compute_done |]. repeat constructor. Qed.

Lemma narrow_fc_plain : plain_labels narrow_fc.
Proof. split; [compute_done |]. repeat constructor. Qed.

Lemma merge_flat_outcome_witness :
  ∃ out, merge_flat (H:=ref_pandas) narrow_hist narrow_fc = Ok out ∧ columns out = FLAT_COLUMNS.
Proof.
  apply (merge_flat_outcome (H:=ref_pandas) narrow_hist narrow_fc
           narrow_hist_plain narrow_fc_plain); compute_done.
Defined.

Lemma merge_flat_cell_formats_witness :
  iso_string (cell_at sample_row "date") ∧
  stamp_string (cell_at sample_row "ingested_at") ∧
  data_type_value (cell_at sample_row "data_type").
Proof.
  apply (merge_flat_cell_formats (H:=ref_pandas) sample_hist sample_fc sample_out).
  - vm_compute. reflexivity.
  - compute_done.
Defined.

Lemma measurement_needs_both_frames_witness :
  cell_at (result_row (merge_flat (H:=ref_pandas) narrow_hist narrow_fc) 0) "obs_tmax_c" = NA.
Proof.
  apply (measurement_needs_both_frames (H:=ref_pandas) narrow_hist narrow_fc
           (result_frame (merge_flat (H:=ref_pandas) narrow_hist narrow_fc))).
  - vm_compute. reflexivity.
  - apply narrow_hist_plain.
  - apply narrow_fc_plain.
  - compute_done.
  - right. compute_done.
  - compute_done.
Defined.

Section MissingColumns.
Context `{Pandas}.

(** X15. A flat column the input frame does not have is created empty:
    [to_flat_schema] returns every row with that field absent, the date
    included. *)
Theorem to_flat_schema_missing_column df c row :
  c ∈ FLAT_COLUMNS → c ∉ columns df → row ∈ rows (to_flat_schema df) →
  cell_at row c = NA.
Proof.
  intros Hc Hn (r & _ & ->)%elem_of_rows_to_flat_schema.
  assert (get_cell (columns df) r c = NA) as Hget.
  { unfold get_cell. by rewrite decide_False. }
  destruct (decide (c = "date")) as [-> | Hd].
  - rewrite flat_row_date, Hget. unfold date_cell. by rewrite to_datetime_NA.
  - by rewrite flat_row_value.
Qed.

End MissingColumns.

Lemma to_flat_schema_missing_column_witness :
  cell_at (default ∅ (rows (to_flat_schema (H:=ref_pandas) narrow_hist) !! 0%nat)) "source" = NA.
Proof.
  apply (to_flat_schema_missing_column (H:=ref_pandas) narrow_hist); compute_done.
Defined.

(** ** What the library leaves open *)




Section DistinctDates.
Context `{Pandas}.


End DistinctDates.



(** * Properties of the ingestion stage *)

(** ** The producers, row by row *)

Lemma df_set_over {A} (l : list A) out cols (G : A → gmap string cell) c (V : A → cell) :
  columns out = cols → rows out = G <$> l →
  columns (df_set out c (V <$> l)) = (if decide (c ∈ cols) then cols else cols ++ [c]) ∧
  rows (df_set out c (V <$> l)) = (λ x, <[c := V x]> (G x)) <$> l.
Proof.
  intros <- Hr. split; [done |]. cbn [rows df_set]. by rewrite Hr, zip_with_fmap_same.
Qed.

Lemma df_set_full_over {A} (l : list A) out cols (G : A → gmap string cell) c v :
  columns out = cols → rows out = G <$> l →
  columns (df_set out c (full out v)) = (if decide (c ∈ cols) then cols else cols ++ [c]) ∧
  rows (df_set out c (full out v)) = (λ x, <[c := v]> (G x)) <$> l.
Proof.
  intros Hc Hr.
  assert (full out v = (λ _, v) <$> l) as ->.
  { unfold full. rewrite Hr, length_fmap. apply replicate_length_fmap. }
  by apply df_set_over.
Qed.

Lemma DataFrame_of_over {A} (l : list A) c1 c2 c3 c4 (V1 V2 V3 V4 : A → cell) :
  c1 ≠ c2 → c1 ≠ c3 → c1 ≠ c4 → c2 ≠ c3 → c2 ≠ c4 → c3 ≠ c4 →
  columns (DataFrame_of (length l)
             [(c1, V1 <$> l); (c2, V2 <$> l); (c3, V3 <$> l); (c4, V4 <$> l)])
  = [c1; c2; c3; c4] ∧
  rows (DataFrame_of (length l)
          [(c1, V1 <$> l); (c2, V2 <$> l); (c3, V3 <$> l); (c4, V4 <$> l)])
  = (λ x, <[c4 := V4 x]> (<[c3 := V3 x]> (<[c2 := V2 x]> (<[c1 := V1 x]> ∅)))) <$> l.
Proof.
  intros. unfold DataFrame_of. cbn [foldl fst snd].
  set (d0 := {| columns := []; rows := replicate (length l) ∅ |}).
  assert (columns d0 = [] ∧ rows d0 = (λ _, ∅) <$> l) as [C0 R0].
  { split; [done |]. apply replicate_length_fmap. }
  destruct (df_set_over l d0 _ _ c1 V1 C0 R0) as [C1 R1].
  rewrite decide_False in C1 by apply not_elem_of_nil.
  destruct (df_set_over l _ _ _ c2 V2 C1 R1) as [C2 R2].
  rewrite decide_False in C2 by set_solver.
  destruct (df_set_over l _ _ _ c3 V3 C2 R2) as [C3 R3].
  rewrite decide_False in C3 by set_solver.
  destruct (df_set_over l _ _ _ c4 V4 C3 R3) as [C4 R4].
  rewrite decide_False in C4 by set_solver.
  done.
Qed.

Ltac broadcast_next :=
  lazymatch goal with
  | C : columns ?o = _, R : rows ?o = _ <$> ?l
    |- context [assign (df_set ?o ?c (full ?o ?v)) ?k] =>
      let o' := fresh "out" in
      let C' := fresh "C" in
      let R' := fresh "R" in
      set (o' := df_set o c (full o v));
      rewrite (assign_eq o' k); cbv beta;
      pose proof (df_set_full_over l o _ _ c v C R : columns o' = _ ∧ rows o' = _) as [C' R'];
      clearbody o'; clear C R;
      lazymatch type of C' with
      | _ = ?cols => let cols' := eval vm_compute in cols in change (columns o' = cols') in C'
      end
  end.

Lemma first_match_elem df_cols candidates name :
  _first_match df_cols candidates = Ok name → name ∈ candidates ∧ name ∈ df_cols.
Proof.
  induction candidates as [|c cs IH]; simpl; [done |].
  case_decide.
  - intros [= <-]. split; [by left | done].
  - intros [? ?]%IH. split; [by right | done].
Qed.

Lemma first_match_Err df_cols candidates e :
  _first_match df_cols candidates = Err e →
  e = KeyError ∧ ∀ c, c ∈ candidates → c ∉ df_cols.
Proof.
  induction candidates as [|c cs IH]; simpl.
  - intros [= <-]. split; [done |]. by intros c ?%elem_of_nil.
  - case_decide; [done |]. intros [-> Hn]%IH. split; [done |].
    intros c' [-> | ?]%elem_of_cons; auto.
Qed.

Section ProducerFacts.
Context `{Pandas} `{Numeric}.

Lemma to_series_date_fmap {A} (g : A → cell) (l : list A) :
  _to_series_date (g <$> l) = (λ x, date_obj (ts_date <$> to_datetime (g x))) <$> l.
Proof.
  unfold _to_series_date, assign, dt_date. by rewrite <- !list_fmap_compose.
Qed.

Lemma ingest_eccc_Ok df now out :
  ingest_eccc df now = Ok out →
  ∃ c_date c_tmax c_tmin c_precip,
    _first_match (columns df) (colmap_candidates "date") = Ok c_date ∧
    _first_match (columns df) (colmap_candidates "tmax") = Ok c_tmax ∧
    _first_match (columns df) (colmap_candidates "tmin") = Ok c_tmin ∧
    _first_match (columns df) (colmap_candidates "precip") = Ok c_precip ∧
    columns out = hist_columns ∧
    rows out = eccc_record c_date c_tmax c_tmin c_precip now <$> rows df.
Proof.
  unfold ingest_eccc.
  destruct (_first_match (columns df) (colmap_candidates "date")) as [c_date|e]; [| done].
  unfold mbind at 1, result_bind at 1.
  destruct (_first_match (columns df) (colmap_candidates "tmax")) as [c_tmax|e]; [| done].
  unfold mbind at 1, result_bind at 1.
  destruct (_first_match (columns df) (colmap_candidates "tmin")) as [c_tmin|e]; [| done].
  unfold mbind at 1, result_bind at 1.
  destruct (_first_match (columns df) (colmap_candidates "precip")) as [c_precip|e]; [| done].
  unfold mbind at 1, result_bind at 1.
  bind_next out0.
  assert (columns out0 = ["date"; "obs_tmax_c"; "obs_tmin_c"; "obs_precip_mm"] ∧
          rows out0 = (λ r, <["obs_precip_mm" := to_numeric (cell_at r c_precip)]>
                              (<["obs_tmin_c" := to_numeric (cell_at r c_tmin)]>
                                 (<["obs_tmax_c" := to_numeric (cell_at r c_tmax)]>
                                    (<["date" := date_obj (ts_date <$>
                                                   to_datetime (cell_at r c_date))]> ∅))))
                      <$> rows df) as [C R].
  { subst out0. unfold df_col. rewrite to_series_date_fmap, <- !list_fmap_compose.
    by apply (DataFrame_of_over (rows df)). }
  clearbody out0.
  do 6 broadcast_next.
  lazymatch goal with Cn : columns ?o = _, Rn : rows ?o = _ |- _ =>
    rename Cn into Cout, Rn into Rout end.
  intros [= <-]. exists c_date, c_tmax, c_tmin, c_precip.
  do 4 (split; [done |]). split; [done |].
  rewrite Rout. apply list_fmap_ext. intros _ r _.
  unfold eccc_record, hist_row, now_toronto_iso.
  apply map_eq. intros k. rewrite !list_to_map_cons, list_to_map_nil. cbn [fst snd].
  rewrite !lookup_insert.
  repeat (case_decide; [subst; reflexivity |]). reflexivity.
Qed.

End ProducerFacts.

Lemma zip4_proj {A} (a b c d : list A) :
  length b = length a → length c = length a → length d = length a →
  a = (λ e, e.1) <$> zip a (zip b (zip c d)) ∧
  b = (λ e, e.2.1) <$> zip a (zip b (zip c d)) ∧
  c = (λ e, e.2.2.1) <$> zip a (zip b (zip c d)) ∧
  d = (λ e, e.2.2.2) <$> zip a (zip b (zip c d)) ∧
  length (zip a (zip b (zip c d))) = length a.
Proof.
  revert b c d. induction a as [|x a IH]; intros [|y b] [|z c] [|w d] Hb Hc Hd;
    simplify_eq/=; [done |].
  destruct (IH b c d) as (E1 & E2 & E3 & E4 & E5); [done.. |].
  repeat split; by f_equal.
Qed.

Lemma lookup_zip4 {A} (a b c d : list A) i x y z w :
  a !! i = Some x → b !! i = Some y → c !! i = Some z → d !! i = Some w →
  zip a (zip b (zip c d)) !! i = Some (x, (y, (z, w))).
Proof.
  intros Ha Hb Hc Hd. unfold zip.
  repeat (apply lookup_zip_with_Some; eexists _, _; split; [done |]; split; [done |]).
  done.
Qed.

Lemma DataFrame_of_zip4 (a b c d : list cell) c1 c2 c3 c4 :
  length b = length a → length c = length a → length d = length a →
  c1 ≠ c2 → c1 ≠ c3 → c1 ≠ c4 → c2 ≠ c3 → c2 ≠ c4 → c3 ≠ c4 →
  columns (DataFrame_of (length a) [(c1, a); (c2, b); (c3, c); (c4, d)]) = [c1; c2; c3; c4] ∧
  rows (DataFrame_of (length a) [(c1, a); (c2, b); (c3, c); (c4, d)])
  = (λ e, <[c4 := e.2.2.2]> (<[c3 := e.2.2.1]> (<[c2 := e.2.1]> (<[c1 := e.1]> ∅))))
      <$> zip a (zip b (zip c d)).
Proof.
  intros Hb Hc Hd ??????.
  destruct (zip4_proj a b c d Hb Hc Hd) as (E1 & E2 & E3 & E4 & E5).
  set (l := zip a (zip b (zip c d))) in *. clearbody l.
  pose proof (DataFrame_of_over l c1 c2 c3 c4 (λ e, e.1) (λ e, e.2.1) (λ e, e.2.2.1)
                (λ e, e.2.2.2)) as Hover.
  rewrite <- E1, <- E2, <- E3, <- E4, E5 in Hover. by apply Hover.
Qed.

Lemma hist_row_cells d a b c i :
  cell_at (hist_row d a b c i) "date" = d ∧
  cell_at (hist_row d a b c i) "obs_tmax_c" = a ∧
  cell_at (hist_row d a b c i) "obs_tmin_c" = b ∧
  cell_at (hist_row d a b c i) "obs_precip_mm" = c ∧
  cell_at (hist_row d a b c i) "data_type" = Str "historical" ∧
  cell_at (hist_row d a b c i) "source" = Str "ECCC" ∧
  cell_at (hist_row d a b c i) "ingested_at" = i ∧
  cell_at (hist_row d a b c i) "fc_tmax_c" = NA ∧
  cell_at (hist_row d a b c i) "fc_tmin_c" = NA ∧
  cell_at (hist_row d a b c i) "fc_precip_mm" = NA.
Proof.
  unfold hist_row. rewrite !list_to_map_cons. cbn [fst snd].
  repeat split; repeat (rewrite cell_at_insert_eq || rewrite cell_at_insert_ne by done); done.
Qed.

Lemma fc_row_cells d a b c i :
  cell_at (fc_row d a b c i) "date" = d ∧
  cell_at (fc_row d a b c i) "fc_tmax_c" = a ∧
  cell_at (fc_row d a b c i) "fc_tmin_c" = b ∧
  cell_at (fc_row d a b c i) "fc_precip_mm" = c ∧
  cell_at (fc_row d a b c i) "data_type" = Str "forecast" ∧
  cell_at (fc_row d a b c i) "source" = Str "OpenMeteo" ∧
  cell_at (fc_row d a b c i) "ingested_at" = i ∧
  cell_at (fc_row d a b c i) "obs_tmax_c" = NA ∧
  cell_at (fc_row d a b c i) "obs_tmin_c" = NA ∧
  cell_at (fc_row d a b c i) "obs_precip_mm" = NA.
Proof.
  unfold fc_row. rewrite !list_to_map_cons. cbn [fst snd].
  repeat split; repeat (rewrite cell_at_insert_eq || rewrite cell_at_insert_ne by done); done.
Qed.

Lemma dom_hist_row d a b c i : dom (hist_row d a b c i) = list_to_set FLAT_COLUMNS.
Proof. unfold hist_row. rewrite dom_list_to_map_L. cbn [fmap list_fmap fst]. set_solver. Qed.

Lemma dom_fc_row d a b c i : dom (fc_row d a b c i) = list_to_set FLAT_COLUMNS.
Proof. unfold fc_row. rewrite dom_list_to_map_L. cbn [fmap list_fmap fst]. set_solver. Qed.

Section OpenMeteoFacts.
Context `{Pandas} `{Numeric}.

Lemma length_to_series_date values : length (_to_series_date values) = length values.
Proof. unfold _to_series_date, assign, dt_date. by rewrite !length_fmap. Qed.

Lemma lookup_to_series_date values i v :
  values !! i = Some v →
  _to_series_date values !! i = Some (date_obj (ts_date <$> to_datetime v)).
Proof.
  intros Hv. unfold _to_series_date, assign, dt_date.
  by rewrite !list_lookup_fmap, Hv.
Qed.

Lemma ingest_openmeteo_Frame daily now out :
  ingest_openmeteo daily now = Frame out →
  dict_get daily "time" ≠ [] ∧
  length (dict_get daily "temperature_2m_max") = length (dict_get daily "time") ∧
  length (dict_get daily "temperature_2m_min") = length (dict_get daily "time") ∧
  length (dict_get daily "precipitation_sum") = length (dict_get daily "time") ∧
  columns out = fc_columns ∧
  rows out = (λ e, fc_row e.1 e.2.1 e.2.2.1 e.2.2.2 (Str (strftime now)))
               <$> zip (_to_series_date (dict_get daily "time"))
                     (zip (to_numeric <$> dict_get daily "temperature_2m_max")
                        (zip (to_numeric <$> dict_get daily "temperature_2m_min")
                           (to_numeric <$> dict_get daily "precipitation_sum"))).
Proof.
  unfold ingest_openmeteo. rewrite assign_eq. cbv beta.
  case_decide as Ht; [done |].
  do 4 (rewrite assign_eq; cbv beta).
  case_decide as Hlen; [| done]. destruct Hlen as (L1 & L2 & L3).
  bind_next out0.
  pose proof (DataFrame_of_zip4 _ _ _ _ "date" "fc_tmax_c" "fc_tmin_c" "fc_precip_mm"
                L1 L2 L3 ltac:(done) ltac:(done) ltac:(done) ltac:(done) ltac:(done)
                ltac:(done) : columns out0 = _ ∧ rows out0 = _) as [C R].
  clearbody out0.
  do 6 broadcast_next.
  lazymatch goal with Cn : columns ?o = _, Rn : rows ?o = _ |- _ =>
    rename Cn into Cout, Rn into Rout end.
  intros [= <-].
  rewrite !length_fmap, length_to_series_date in L1, L2, L3.
  do 4 (split; [done |]). split; [done |].
  rewrite Rout. apply list_fmap_ext. intros _ e _.
  unfold fc_row, now_toronto_iso.
  apply map_eq. intros k. rewrite !list_to_map_cons, list_to_map_nil. cbn [fst snd].
  rewrite !lookup_insert.
  repeat (case_decide; [subst; reflexivity |]). reflexivity.
Qed.

End OpenMeteoFacts.

(** X7. [_first_match] returns the first candidate that is a column: the
    candidates before it are no columns; it raises [KeyError] exactly when
    no candidate is a column. *)
Theorem first_match_spec df_cols candidates :
  match _first_match df_cols candidates with
  | Ok name => ∃ before after, candidates = before ++ name :: after ∧
                 name ∈ df_cols ∧ ∀ c, c ∈ before → c ∉ df_cols
  | Err e => e = KeyError ∧ ∀ c, c ∈ candidates → c ∉ df_cols
  end.
Proof.
  induction candidates as [|c cs IH]; simpl.
  - split; [done |]. by intros c ?%elem_of_nil.
  - case_decide as Hc.
    + exists [], cs. split; [done |]. split; [done |]. by intros c' ?%elem_of_nil.
    + destruct (_first_match df_cols cs) as [name|e].
      * destruct IH as (before & after & -> & Hin & Hb).
        exists (c :: before), after. split; [done |]. split; [done |].
        intros c' [-> | ?]%elem_of_cons; auto.
      * destruct IH as [-> Hn]. split; [done |].
        intros c' [-> | ?]%elem_of_cons; auto.
Qed.

Section ProducerTheorems.
Context `{Pandas} `{Numeric}.

(** X8. [ingest_eccc] returns a frame when the file has a column for each
    of the four fields under one of the candidate names, and raises
    [KeyError] when some field has none; it raises nothing else. *)
Theorem ingest_eccc_outcome df now :
  match ingest_eccc df now with
  | Ok out => ∀ field, field ∈ ingest_fields →
                ∃ c, c ∈ colmap_candidates field ∧ c ∈ columns df
  | Err e => e = KeyError ∧
             ∃ field, field ∈ ingest_fields ∧
               ∀ c, c ∈ colmap_candidates field → c ∉ columns df
  end.
Proof.
  unfold ingest_eccc.
  destruct (_first_match (columns df) (colmap_candidates "date")) as [c1|e] eqn:E1;
    [| apply first_match_Err in E1 as [-> ?]; split; [done |];
       exists "date"; split; [compute_done | done]].
  unfold mbind at 1, result_bind at 1.
  destruct (_first_match (columns df) (colmap_candidates "tmax")) as [c2|e] eqn:E2;
    [| apply first_match_Err in E2 as [-> ?]; split; [done |];
       exists "tmax"; split; [compute_done | done]].
  unfold mbind at 1, result_bind at 1.
  destruct (_first_match (columns df) (colmap_candidates "tmin")) as [c3|e] eqn:E3;
    [| apply first_match_Err in E3 as [-> ?]; split; [done |];
       exists "tmin"; split; [compute_done | done]].
  unfold mbind at 1, result_bind at 1.
  destruct (_first_match (columns df) (colmap_candidates "precip")) as [c4|e] eqn:E4;
    [| apply first_match_Err in E4 as [-> ?]; split; [done |];
       exists "precip"; split; [compute_done | done]].
  unfold mbind at 1, result_bind at 1.
  repeat skip_next. cbv beta iota.
  apply first_match_elem in E1, E2, E3, E4.
  intros field Hf. unfold ingest_fields in Hf. set_unfold in Hf.
  destruct_or!; subst; eauto.
Qed.

(** X9. The frame [ingest_eccc] returns has one record per row of the
    file, in the order of the file: the date and the three observed
    values of the [i]-th record are read from the [i]-th row, each under
    the first candidate name the file has a column for. *)
Theorem ingest_eccc_reads_rows df now out :
  ingest_eccc df now = Ok out →
  ∃ c_date c_tmax c_tmin c_precip,
    _first_match (columns df) (colmap_candidates "date") = Ok c_date ∧
    _first_match (columns df) (colmap_candidates "tmax") = Ok c_tmax ∧
    _first_match (columns df) (colmap_candidates "tmin") = Ok c_tmin ∧
    _first_match (columns df) (colmap_candidates "precip") = Ok c_precip ∧
    length (rows out) = length (rows df) ∧
    ∀ i r, rows df !! i = Some r →
      ∃ row, rows out !! i = Some row ∧
        cell_at row "date" = date_obj (ts_date <$> to_datetime (cell_at r c_date)) ∧
        cell_at row "obs_tmax_c" = to_numeric (cell_at r c_tmax) ∧
        cell_at row "obs_tmin_c" = to_numeric (cell_at r c_tmin) ∧
        cell_at row "obs_precip_mm" = to_numeric (cell_at r c_precip).
Proof.
  intros (c_date & c_tmax & c_tmin & c_precip & M1 & M2 & M3 & M4 & _ & Hrows)%ingest_eccc_Ok.
  exists c_date, c_tmax, c_tmin, c_precip. do 4 (split; [done |]).
  rewrite Hrows, length_fmap. split; [done |].
  intros i r Hr. eexists. rewrite list_lookup_fmap, Hr. split; [done |].
  unfold eccc_record.
  match goal with |- context [hist_row ?d ?a ?b ?c ?t] =>
    destruct (hist_row_cells d a b c t) as (-> & -> & -> & -> & _) end.
  done.
Qed.

(** X10. Every record [ingest_eccc] returns is a historical record in the
    producer's column order: it is marked ["historical"] and ["ECCC"],
    stamped with the time of the call, holds exactly the ten flat fields,
    none of the forecast fields, observed values that are numbers or
    absent and a date that is a calendar date or absent. *)
Theorem ingest_eccc_records df now out row :
  ingest_eccc df now = Ok out → row ∈ rows out →
  columns out = hist_columns ∧
  dom row = list_to_set FLAT_COLUMNS ∧
  cell_at row "data_type" = Str "historical" ∧
  cell_at row "source" = Str "ECCC" ∧
  cell_at row "ingested_at" = Str (strftime now) ∧
  any_forecast row = false ∧
  date_or_absent (cell_at row "date") ∧
  number_or_absent (cell_at row "obs_tmax_c") ∧
  number_or_absent (cell_at row "obs_tmin_c") ∧
  number_or_absent (cell_at row "obs_precip_mm").
Proof.
  intros (c_date & c_tmax & c_tmin & c_precip & _ & _ & _ & _ & Hcols & Hrows)%ingest_eccc_Ok.
  rewrite Hrows. intros (r & -> & _)%list_elem_of_fmap.
  split; [done |]. unfold eccc_record. split; [apply dom_hist_row |].
  unfold any_forecast.
  match goal with |- context [hist_row ?d ?a ?b ?c ?t] =>
    destruct (hist_row_cells d a b c t)
      as (-> & -> & -> & -> & -> & -> & -> & -> & -> & ->) end.
  do 4 (split; [done |]). split.
  - destruct (to_datetime (cell_at r c_date)); [right | left]; simpl; eauto.
  - repeat split; apply to_numeric_coerce.
Qed.

(** X11. Once the response is decoded, [ingest_openmeteo] raises
    [RuntimeError] exactly when the response lists no day, raises
    [ValueError] exactly when it lists days but one of the three arrays
    has another length than the list of days, and returns a frame
    otherwise. *)
Theorem ingest_openmeteo_outcome daily now :
  match ingest_openmeteo daily now with
  | Frame out =>
      dict_get daily "time" ≠ [] ∧
      length (dict_get daily "temperature_2m_max") = length (dict_get daily "time") ∧
      length (dict_get daily "temperature_2m_min") = length (dict_get daily "time") ∧
      length (dict_get daily "precipitation_sum") = length (dict_get daily "time")
  | Raised RuntimeError => dict_get daily "time" = []
  | Raised ValueError =>
      dict_get daily "time" ≠ [] ∧
      ¬ (length (dict_get daily "temperature_2m_max") = length (dict_get daily "time") ∧
         length (dict_get daily "temperature_2m_min") = length (dict_get daily "time") ∧
         length (dict_get daily "precipitation_sum") = length (dict_get daily "time"))
  end.
Proof.
  unfold ingest_openmeteo. rewrite assign_eq. cbv beta.
  case_decide as Ht; [done |].
  do 4 (rewrite assign_eq; cbv beta).
  rewrite !length_fmap, length_to_series_date.
  case_decide as Hlen.
  - repeat skip_next. cbv beta iota. by split.
  - by split.
Qed.

(** X12. The frame [ingest_openmeteo] returns has one record per listed
    day, in the order of the response: the [i]-th record holds the date of
    the [i]-th day and the [i]-th entry of each of the three arrays. *)
Theorem ingest_openmeteo_reads_arrays daily now out :
  ingest_openmeteo daily now = Frame out →
  length (rows out) = length (dict_get daily "time") ∧
  ∀ i t a b c,
    dict_get daily "time" !! i = Some t →
    dict_get daily "temperature_2m_max" !! i = Some a →
    dict_get daily "temperature_2m_min" !! i = Some b →
    dict_get daily "precipitation_sum" !! i = Some c →
    ∃ row, rows out !! i = Some row ∧
      cell_at row "date" = date_obj (ts_date <$> to_datetime t) ∧
      cell_at row "fc_tmax_c" = to_numeric a ∧
      cell_at row "fc_tmin_c" = to_numeric b ∧
      cell_at row "fc_precip_mm" = to_numeric c.
Proof.
  intros (Ht & L1 & L2 & L3 & _ & Hrows)%ingest_openmeteo_Frame.
  rewrite Hrows, length_fmap. split.
  - destruct (zip4_proj (_to_series_date (dict_get daily "time"))
                (to_numeric <$> dict_get daily "temperature_2m_max")
                (to_numeric <$> dict_get daily "temperature_2m_min")
                (to_numeric <$> dict_get daily "precipitation_sum"))
      as (_ & _ & _ & _ & ->);
      rewrite ?length_fmap, !length_to_series_date; done.
  - intros i t a b c Hi Ha Hb Hc. eexists. rewrite list_lookup_fmap.
    erewrite lookup_zip4;
      [| by apply lookup_to_series_date | by rewrite list_lookup_fmap, Ha
       | by rewrite list_lookup_fmap, Hb | by rewrite list_lookup_fmap, Hc].
    split; [done |]. cbn [fst snd].
    match goal with |- context [fc_row ?d ?x ?y ?z ?s] =>
      destruct (fc_row_cells d x y z s) as (-> & -> & -> & -> & _) end.
    done.
Qed.

(** X13. Every record [ingest_openmeteo] returns is a forecast record in
    the producer's column order: it is marked ["forecast"] and
    ["OpenMeteo"], stamped with the time of the call, holds exactly the
    ten flat fields, none of the observed fields, forecast values that
    are numbers or absent and a date that is a calendar date or absent. *)
Theorem ingest_openmeteo_records daily now out row :
  ingest_openmeteo daily now = Frame out → row ∈ rows out →
  columns out = fc_columns ∧
  dom row = list_to_set FLAT_COLUMNS ∧
  cell_at row "data_type" = Str "forecast" ∧
  cell_at row "source" = Str "OpenMeteo" ∧
  cell_at row "ingested_at" = Str (strftime now) ∧
  any_observed row = false ∧
  date_or_absent (cell_at row "date") ∧
  number_or_absent (cell_at row "fc_tmax_c") ∧
  number_or_absent (cell_at row "fc_tmin_c") ∧
  number_or_absent (cell_at row "fc_precip_mm").
Proof.
  intros (_ & _ & _ & _ & Hcols & Hrows)%ingest_openmeteo_Frame.
  rewrite Hrows. intros ([d [a [b c]]] & -> & He)%list_elem_of_fmap.
  split; [done |]. cbn [fst snd]. split; [apply dom_fc_row |].
  unfold any_observed.
  destruct (fc_row_cells d a b c (Str (strftime now)))
    as (-> & -> & -> & -> & -> & -> & -> & -> & -> & ->).
  do 4 (split; [done |]).
  pose proof (elem_of_zip_l _ _ _ _ He) as Hd.
  apply elem_of_zip_r in He. pose proof (elem_of_zip_l _ _ _ _ He) as Ha.
  apply elem_of_zip_r in He. pose proof (elem_of_zip_l _ _ _ _ He) as Hb.
  apply elem_of_zip_r in He.
  unfold _to_series_date, assign, dt_date in Hd.
  rewrite <- !list_fmap_compose in Hd.
  apply list_elem_of_fmap in Hd as (t & -> & _).
  apply list_elem_of_fmap in Ha as (x & -> & _).
  apply list_elem_of_fmap in Hb as (y & -> & _).
  apply list_elem_of_fmap in He as (z & -> & _).
  split.
  - simpl. destruct (to_datetime t); [right | left]; simpl; eauto.
  - repeat split; apply to_numeric_coerce.
Qed.

(** X14. The transformation never fails on what the two producers
    return: [merge_flat] merges their frames into a frame with the flat
    columns, in which every row is either ["historical"] from ["ECCC"],
    or ["forecast"] from ["OpenMeteo"], or ["unknown"] without source. *)
Theorem merge_of_ingested_frames csv daily now_hist now_fc eccc_df fc_df :
  ingest_eccc csv now_hist = Ok eccc_df →
  ingest_openmeteo daily now_fc = Frame fc_df →
  ∃ out, merge_flat eccc_df fc_df = Ok out ∧ columns out = FLAT_COLUMNS ∧
    ∀ row, row ∈ rows out → labelled row.
Proof.
  intros (c1 & c2 & c3 & c4 & _ & _ & _ & _ & Ch & Rh)%ingest_eccc_Ok
         (_ & _ & _ & _ & Cf & Rf)%ingest_openmeteo_Frame.
  assert (raw_schema eccc_df) as Sh by (unfold raw_schema; rewrite Ch; compute_done).
  assert (raw_schema fc_df) as Sf by (unfold raw_schema; rewrite Cf; compute_done).
  destruct (merge_flat_rows eccc_df fc_df Sh Sf) as (out & Hout & Hcols & _).
  exists out. split; [done |]. split; [done |].
  intros row Hrow.
  destruct (merge_flat_row_inv eccc_df fc_df out row Hout)
    as (k & l & r & -> & Sl & Sr & _); [| | done |].
  { intros c Hc. by apply raw_schema_columns. }
  { intros c Hc. by apply raw_schema_columns. }
  unfold labelled. rewrite flat_record_data_type, flat_record_source.
  destruct (has_observed l) eqn:Ho; [| destruct (has_forecast r) eqn:Hf].
  - left. split; [done |]. destruct l as [h|]; [| done].
    destruct Sl as [Hh _]. rewrite Rh in Hh.
    apply list_elem_of_fmap in Hh as (r0 & -> & _). simpl. unfold eccc_record.
    match goal with |- context [hist_row ?d ?a ?b ?c ?t] =>
      apply (hist_row_cells d a b c t) end.
  - right. left. split; [done |]. destruct r as [f|]; [| done].
    destruct Sr as [Hf' _]. rewrite Rf in Hf'.
    apply list_elem_of_fmap in Hf' as ([d [a [b c]]] & -> & _). simpl.
    apply (fc_row_cells d a b c).
  - right. right. done.
Qed.

End ProducerTheorems.

Lemma ingest_eccc_reads_rows_witness :
  ∃ c_date c_tmax c_tmin c_precip,
    _first_match (columns sample_csv) (colmap_candidates "date") = Ok c_date ∧
    _first_match (columns sample_csv) (colmap_candidates "tmax") = Ok c_tmax ∧
    _first_match (columns sample_csv) (colmap_candidates "tmin") = Ok c_tmin ∧
    _first_match (columns sample_csv) (colmap_candidates "precip") = Ok c_precip ∧
    length (rows sample_eccc_df) = length (rows sample_csv) ∧
    ∀ i r, rows sample_csv !! i = Some r →
      ∃ row, rows sample_eccc_df !! i = Some row ∧
        cell_at row "date"
        = date_obj (ts_date <$> to_datetime (Pandas:=ref_pandas) (cell_at r c_date)) ∧
        cell_at row "obs_tmax_c" = to_numeric (Numeric:=ref_numeric) (cell_at r c_tmax) ∧
        cell_at row "obs_tmin_c" = to_numeric (Numeric:=ref_numeric) (cell_at r c_tmin) ∧
        cell_at row "obs_precip_mm" = to_numeric (Numeric:=ref_numeric) (cell_at r c_precip).
Proof.
  apply (@ingest_eccc_reads_rows ref_pandas ref_numeric sample_csv sample_now).
  vm_compute. reflexivity.
Defined.

Lemma ingest_eccc_records_witness :
  columns sample_eccc_df = hist_columns ∧
  dom (default ∅ (rows sample_eccc_df !! 0%nat)) = list_to_set FLAT_COLUMNS ∧
  cell_at (default ∅ (rows sample_eccc_df !! 0%nat)) "data_type" = Str "historical" ∧
  cell_at (default ∅ (rows sample_eccc_df !! 0%nat)) "source" = Str "ECCC" ∧
  cell_at (default ∅ (rows sample_eccc_df !! 0%nat)) "ingested_at" = Str (strftime sample_now) ∧
  any_forecast (default ∅ (rows sample_eccc_df !! 0%nat)) = false ∧
  date_or_absent (cell_at (default ∅ (rows sample_eccc_df !! 0%nat)) "date") ∧
  number_or_absent (cell_at (default ∅ (rows sample_eccc_df !! 0%nat)) "obs_tmax_c") ∧
  number_or_absent (cell_at (default ∅ (rows sample_eccc_df !! 0%nat)) "obs_tmin_c") ∧
  number_or_absent (cell_at (default ∅ (rows sample_eccc_df !! 0%nat)) "obs_precip_mm").
Proof.
  apply (@ingest_eccc_records ref_pandas ref_numeric sample_csv sample_now sample_eccc_df).
  - vm_compute. reflexivity.
  - compute_done.
Defined.

Lemma ingest_openmeteo_reads_arrays_witness :
  length (rows sample_fc_df) = length (dict_get sample_daily "time") ∧
  ∀ i t a b c,
    dict_get sample_daily "time" !! i = Some t →
    dict_get sample_daily "temperature_2m_max" !! i = Some a →
    dict_get sample_daily "temperature_2m_min" !! i = Some b →
    dict_get sample_daily "precipitation_sum" !! i = Some c →
    ∃ row, rows sample_fc_df !! i = Some row ∧
      cell_at row "date" = date_obj (ts_date <$> to_datetime (Pandas:=ref_pandas) t) ∧
      cell_at row "fc_tmax_c" = to_numeric (Numeric:=ref_numeric) a ∧
      cell_at row "fc_tmin_c" = to_numeric (Numeric:=ref_numeric) b ∧
      cell_at row "fc_precip_mm" = to_numeric (Numeric:=ref_numeric) c.
Proof.
  apply (@ingest_openmeteo_reads_arrays ref_pandas ref_numeric sample_daily sample_now).
  vm_compute. reflexivity.
Defined.

Lemma ingest_openmeteo_records_witness :
  columns sample_fc_df = fc_columns ∧
  dom (default ∅ (rows sample_fc_df !! 1%nat)) = list_to_set FLAT_COLUMNS ∧
  cell_at (default ∅ (rows sample_fc_df !! 1%nat)) "data_type" = Str "forecast" ∧
  cell_at (default ∅ (rows sample_fc_df !! 1%nat)) "source" = Str "OpenMeteo" ∧
  cell_at (default ∅ (rows sample_fc_df !! 1%nat)) "ingested_at" = Str (strftime sample_now) ∧
  any_observed (default ∅ (rows sample_fc_df !! 1%nat)) = false ∧
  date_or_absent (cell_at (default ∅ (rows sample_fc_df !! 1%nat)) "date") ∧
  number_or_absent (cell_at (default ∅ (rows sample_fc_df !! 1%nat)) "fc_tmax_c") ∧
  number_or_absent (cell_at (default ∅ (rows sample_fc_df !! 1%nat)) "fc_tmin_c") ∧
  number_or_absent (cell_at (default ∅ (rows sample_fc_df !! 1%nat)) "fc_precip_mm").
Proof.
  apply (@ingest_openmeteo_records ref_pandas ref_numeric sample_daily sample_now sample_fc_df).
  - vm_compute. reflexivity.
  - compute_done.
Defined.

Lemma merge_of_ingested_frames_witness :
  ∃ out, merge_flat (H:=ref_pandas) sample_eccc_df sample_fc_df = Ok out ∧
    columns out = FLAT_COLUMNS ∧ ∀ row, row ∈ rows out → labelled row.
Proof.
  apply (@merge_of_ingested_frames ref_pandas ref_numeric sample_csv sample_daily
           sample_now sample_now).
  - vm_compute. reflexivity.
  - vm_compute. reflexivity.
Defined.
